(** * vim-pyunit: source file / test file path mapping

    A shallow embedding of [python_unittests.py] (the Python side of the
    vim-pyunit plugin) and the verification of the properties its
    specification states about it.

    Python values are embedded as follows: [str] as [string], lists as
    [list], a raised exception as the [Raise] outcome of [result].  The
    pieces of the Python runtime the program calls ([str] methods and
    [posixpath]) are embedded first, then the program itself, function by
    function and under the names it uses. *)

From Stdlib Require Import String Ascii List Bool Arith ZArith Lia.
Import ListNotations.
Open Scope list_scope.
Open Scope string_scope.

(* ================================================================== *)
(** ** Python [str] builtins *)

Module PyStr.

(** [s.split(c)] for a one-character separator [c]: never empty. *)
Fixpoint split (c : ascii) (s : string) : list string :=
  match s with
  | EmptyString => [EmptyString]
  | String a s' =>
      if Ascii.eqb a c then EmptyString :: split c s'
      else match split c s' with
           | [] => [String a EmptyString]
           | h :: t => String a h :: t
           end
  end.

(** [sep.join(l)] *)
Definition join (sep : string) (l : list string) : string :=
  String.concat sep l.

(** [s.startswith(p)] *)
Definition startswith (s p : string) : bool := String.prefix p s.

(** [s[n:]] for [0 <= n] *)
Fixpoint drop (n : nat) (s : string) : string :=
  match n, s with
  | O, _ => s
  | S n', String _ s' => drop n' s'
  | S _, EmptyString => EmptyString
  end.

(** [s[:n]] for [0 <= n] *)
Fixpoint take (n : nat) (s : string) : string :=
  match n, s with
  | O, _ => EmptyString
  | S n', String a s' => String a (take n' s')
  | S _, EmptyString => EmptyString
  end.

(** [s[:-n]] for [0 < n] *)
Definition drop_end (n : nat) (s : string) : string :=
  take (String.length s - n) s.

(** [s.endswith(suf)] *)
Definition endswith (s suf : string) : bool :=
  (String.length suf <=? String.length s)%nat
  && String.eqb (drop (String.length s - String.length suf) s) suf.

(** [s.rfind(c)] for a one-character [c]: the highest index, or [-1]. *)
Fixpoint rfind (c : ascii) (s : string) : Z :=
  match s with
  | EmptyString => (-1)%Z
  | String a s' =>
      let r := rfind c s' in
      if (0 <=? r)%Z then (r + 1)%Z
      else if Ascii.eqb a c then 0%Z else (-1)%Z
  end.

(** [s.rstrip(c)] for a one-character [c]. *)
Fixpoint rstrip (c : ascii) (s : string) : string :=
  match s with
  | EmptyString => EmptyString
  | String a s' =>
      match rstrip c s' with
      | EmptyString => if Ascii.eqb a c then EmptyString
                       else String a EmptyString
      | r => String a r
      end
  end.

(** [c * n] *)
Fixpoint times (c : ascii) (n : nat) : string :=
  match n with
  | O => EmptyString
  | S n' => String c (times c n')
  end.

(** [c in s] *)
Fixpoint contains (c : ascii) (s : string) : bool :=
  match s with
  | EmptyString => false
  | String a s' => Ascii.eqb a c || contains c s'
  end.

End PyStr.

(* ================================================================== *)
(** ** [posixpath] (Python 2's [os.path] on the platforms the plugin
       targets) *)

Module posixpath.
Import PyStr.

Definition sep_char : ascii := "/"%char.
Definition sep : string := "/".
Definition pardir : string := "..".
Definition curdir : string := ".".

Definition isabs (p : string) : bool := startswith p "/".

(** [join(a, b)]: one step of the loop of [posixpath.join]. *)
Definition join2 (path b : string) : string :=
  if startswith b "/" then b
  else if String.eqb path "" || endswith path "/" then path ++ b
  else path ++ "/" ++ b.

(** [join(a, *p)] *)
Definition join (a : string) (p : list string) : string :=
  fold_left join2 p a.

(** [dirname(p)] *)
Definition dirname (p : string) : string :=
  let i := (rfind sep_char p + 1)%Z in
  let head := take (Z.to_nat i) p in
  if negb (String.eqb head "")
     && negb (String.eqb head (times sep_char (String.length head)))
  then rstrip sep_char head
  else head.

(** The loop of [genericpath._splitext] that skips leading dots:
    is there a character other than a dot in [p[i:i+n]]? *)
Fixpoint has_non_dot (n : nat) (i : nat) (p : string) : bool :=
  match n with
  | O => false
  | S n' =>
      match String.get i p with
      | Some c => if Ascii.eqb c "."%char then has_non_dot n' (S i) p
                  else true
      | None => false
      end
  end.

(** [splitext(p)] *)
Definition splitext (p : string) : string * string :=
  let sepIndex := rfind sep_char p in
  let dotIndex := rfind "."%char p in
  if (sepIndex <? dotIndex)%Z
     && has_non_dot (Z.to_nat (dotIndex - (sepIndex + 1)))
                    (Z.to_nat (sepIndex + 1)) p
  then (take (Z.to_nat dotIndex) p, drop (Z.to_nat dotIndex) p)
  else (p, "").

(** The body of the loop of [normpath] over the components. *)
Definition norm_step (initial_slashes : nat) (new_comps : list string)
           (comp : string) : list string :=
  if String.eqb comp "" || String.eqb comp "." then new_comps
  else if negb (String.eqb comp "..")
          || ((initial_slashes =? 0)%nat
              && match new_comps with [] => true | _ => false end)
          || match new_comps with
             | [] => false
             | _ => String.eqb (last new_comps "") ".."
             end
       then (new_comps ++ [comp])%list
       else removelast new_comps.

(** [normpath(path)] *)
Definition normpath (path : string) : string :=
  if String.eqb path "" then curdir
  else
    let initial_slashes :=
      if startswith path "/" then
        if startswith path "//" && negb (startswith path "///")
        then 2%nat else 1%nat
      else 0%nat in
    let comps := split sep_char path in
    let comps := fold_left (norm_step initial_slashes) comps [] in
    let path := PyStr.join sep comps in
    let path := times sep_char initial_slashes ++ path in
    if String.eqb path "" then curdir else path.

(** [abspath(path)], with [cwd] the value of [os.getcwd()]. *)
Definition abspath (cwd path : string) : string :=
  normpath (if isabs path then path else join2 cwd path).

End posixpath.

(* ================================================================== *)
(** ** Outcomes of a Python call *)

Inductive exn : Type :=
| IndexError
| ValueError (msg : string)
| RuntimeError (msg : string)
| Exception (msg : string).

(** A call returns a value, raises, or (for the two loops whose exit
    depends on their data) is still running when its fuel is spent. *)
Inductive result (A : Type) : Type :=
| Return (a : A)
| Raise (e : exn)
| OutOfFuel.

Arguments Return {A} a.
Arguments Raise {A} e.
Arguments OutOfFuel {A}.

Definition bind {A B : Type} (m : result A) (k : A -> result B) : result B :=
  match m with
  | Return a => k a
  | Raise e => Raise e
  | OutOfFuel => OutOfFuel
  end.

Declare Scope py_scope.
Delimit Scope py_scope with py.
Notation "x <- m ;; k" := (bind m (fun x => k))
  (at level 61, m at next level, right associativity) : py_scope.
Open Scope py_scope.

(** The error kinds of the specification, as the exceptions the program
    raises for them. *)
Definition NotATestFile : exn := RuntimeError "Not a test file.".
Definition NotUnderSourceRoot (f : string) : exn :=
  RuntimeError ("File " ++ f ++ " is not under the source root.").
Definition NotUnderTestRoot (f : string) : exn :=
  RuntimeError ("File " ++ f ++ " is not under the test root.").
Definition InvalidTestPath : exn :=
  RuntimeError
    "Flat tests layout does not allow tests to be more than one directory deep.".
Definition SourceFileNotFound : exn := Exception "Source file not found.".
Definition ProjectRootNotFound : exn :=
  Exception "Could not find project root".
Definition UnknownLayout (name : string) : exn :=
  RuntimeError ("No such test layout: " ++ name).

(* ================================================================== *)
(** ** The environment: operating system and Vim configuration *)

(** What the program observes of the operating system. *)
Record OS : Type := {
  getcwd : string;                 (* os.getcwd() *)
  HOME : string;                   (* os.path.expandvars("$HOME") *)
  realpath : string -> string;     (* os.path.realpath *)
  exists_ : string -> bool;        (* os.path.exists *)
  isfile : string -> bool;         (* os.path.isfile *)
  isdir : string -> bool;          (* os.path.isdir *)
  has_relpath : bool               (* does os.path have relpath
                                      (Python 2.6 and later)? *)
}.

(** The Vim globals the program reads with [vim.eval]. *)
Record Vim : Type := {
  PyUnitSourceRoot : string;
  PyUnitTestsRoot : string;
  PyUnitTestPrefix : string;
  PyUnitTestsStructure : string;
  ProjRootStopAtHomeDir : Z;
  ProjRootIndicators : list string
}.

(* ================================================================== *)
(** ** [os.path.relpath] of the standard library *)

Module stdlib.
Import PyStr posixpath.

(** [commonprefix([l1, l2])] on two lists: their longest common
    prefix (the library computes it from their minimum and maximum). *)
Fixpoint commonprefix (l1 l2 : list string) : list string :=
  match l1, l2 with
  | x :: l1', y :: l2' =>
      if String.eqb x y then x :: commonprefix l1' l2' else []
  | _, _ => []
  end.

Definition nonempty (x : string) : bool := negb (String.eqb x "").

(** [os.path.relpath(path, start)] *)
Definition relpath (cwd path start : string) : result string :=
  if String.eqb path "" then Raise (ValueError "no path specified")
  else
    let start_list := filter nonempty (split sep_char (abspath cwd start)) in
    let path_list := filter nonempty (split sep_char (abspath cwd path)) in
    let i := List.length (commonprefix start_list path_list) in
    let rel_list :=
      (repeat pardir (List.length start_list - i) ++ skipn i path_list)%list in
    match rel_list with
    | [] => Return curdir
    | a :: p => Return (join a p)
    end.

End stdlib.

(* ================================================================== *)
(** ** The program *)

Import PyStr.

(** *** General helper functions *)

Definition strip_prefix (s prefix : string) : string :=
  if negb (String.eqb prefix "") && startswith s prefix
  then drop (String.length prefix) s
  else s.

(** *** [_relpath] *)

(** The [while True] loop of [_relpath]: strip directories off of
    [fulls] until it is a prefix of [fullp]. *)
Fixpoint strip_dirs (fuel : nat) (fullp fulls : string)
         (path_prefixes : list string) : option (list string * string) :=
  match fuel with
  | O => None
  | S fuel' =>
      let path_prefixes := (path_prefixes ++ [posixpath.pardir])%list in
      let fulls := posixpath.dirname fulls in
      if startswith fullp fulls then Some (path_prefixes, fulls)
      else strip_dirs fuel' fullp fulls path_prefixes
  end.

(** The part of [_relpath] after the standard library was tried: the
    program's own implementation. *)
Definition _relpath_own (os : OS) (path start : string) : result string :=
  let fullp := posixpath.abspath (getcwd os) path in
  let fulls := posixpath.abspath (getcwd os) start in
  let matchs := posixpath.normpath start in
  let matchs :=
    if negb (endswith matchs posixpath.sep) then matchs ++ posixpath.sep
    else matchs in
  if String.eqb fullp fulls then Return "."
  else if startswith fullp matchs then
    Return (drop (String.length matchs) fullp)
  else
    match strip_dirs (S (String.length fulls)) fullp fulls [] with
    | None => OutOfFuel
    | Some (path_prefixes, fulls) =>
        let remainder := drop (String.length fulls) fullp in
        let remainder :=
          if startswith remainder posixpath.sep
          then drop (String.length posixpath.sep) remainder
          else remainder in
        let path_prefix := join posixpath.sep path_prefixes in
        Return (posixpath.join2 path_prefix remainder)
    end.

Definition _relpath (os : OS) (path start : string) (try_stdlib : bool)
  : result string :=
  if try_stdlib && has_relpath os
  then stdlib.relpath (getcwd os) path start
  else _relpath_own os path start.

(** *** Classes that implement test layouts *)

(** The attributes [BaseTestLayout.__init__] reads from Vim. *)
Record BaseTestLayout : Type := {
  source_root : string;
  test_root : string;
  prefix : string
}.

Definition BaseTestLayout__init__ (vim : Vim) : BaseTestLayout :=
  {| source_root := PyUnitSourceRoot vim;
     test_root := PyUnitTestsRoot vim;
     prefix := PyUnitTestPrefix vim |}.

(** [parts[-1]] *)
Definition last_part (parts : list string) : result string :=
  match parts with
  | [] => Raise IndexError
  | _ => Return (last parts "")
  end.

(** [parts[-1] = v] *)
Definition set_last_part (parts : list string) (v : string)
  : result (list string) :=
  match parts with
  | [] => Raise IndexError
  | _ => Return (removelast parts ++ [v])%list
  end.

Definition break_down (path : string) : list string :=
  let parts := split posixpath.sep_char path in
  if (0 <? List.length parts)%nat then
    if String.eqb (last parts "") "__init__.py" then removelast parts
    else if endswith (last parts "") ".py"
    then (removelast parts
            ++ [drop_end (String.length ".py") (last parts "")])%list
    else parts
  else parts.

Definition glue_parts (parts : list string) (use_under_under_init : bool)
  : result string :=
  parts <- (if use_under_under_init
            then Return (parts ++ ["__init__.py"])%list
            else l <- last_part parts ;;
                 Return (removelast parts ++ [(l ++ ".py")%string])%list) ;;
  Return (join posixpath.sep parts).

(** The three methods a layout implements. *)
Module TestLayout.
Record t : Type := {
  is_test_file : string -> result bool;
  get_test_file : string -> result string;
  get_source_candidates : string -> result (list string)
}.
End TestLayout.

Module SideBySideLayout.
Section Methods.
Variable self : BaseTestLayout.

Definition is_test_file (some_file : string) : result bool :=
  let parts := break_down some_file in
  filepart <- last_part parts ;;
  Return (startswith filepart (prefix self)).

Definition get_test_file (source_file : string) : result string :=
  let parts := break_down source_file in
  l <- last_part parts ;;
  parts <- set_last_part parts (prefix self ++ l) ;;
  glue_parts parts false.

Definition get_source_candidates (test_file : string)
  : result (list string) :=
  let parts := break_down test_file in
  filepart <- last_part parts ;;
  if negb (startswith filepart (prefix self)) then Raise NotATestFile
  else
    parts <- set_last_part parts
               (drop (String.length (prefix self)) filepart) ;;
    c <- glue_parts parts false ;;
    Return [c].

Definition new : TestLayout.t :=
  {| TestLayout.is_test_file := is_test_file;
     TestLayout.get_test_file := get_test_file;
     TestLayout.get_source_candidates := get_source_candidates |}.
End Methods.
End SideBySideLayout.

Module FlatLayout.
Section Methods.
Variable os : OS.
Variable self : BaseTestLayout.

Definition is_test_file (some_file : string) : result bool :=
  if negb (startswith some_file (test_root self)) then Return false
  else
    some_file <- _relpath os some_file (test_root self) true ;;
    let parts := break_down some_file in
    if negb (List.length parts =? 1)%nat then Return false
    else Return (startswith (nth 0 parts "") (prefix self)).

Definition get_test_file (source_file : string) : result string :=
  if negb (startswith source_file (source_root self))
  then Raise (NotUnderSourceRoot source_file)
  else
    source_file <- _relpath os source_file (source_root self) true ;;
    let parts := break_down source_file in
    let flat_file_name := join "_" parts in
    let parts :=
      ([test_root self] ++ [(prefix self ++ flat_file_name)%string])%list in
    glue_parts parts false.

Definition get_source_candidates (test_file : string)
  : result (list string) :=
  if negb (startswith test_file (test_root self))
  then Raise (NotUnderTestRoot test_file)
  else
    test_file <- _relpath os test_file (test_root self) true ;;
    let parts := break_down test_file in
    if negb (List.length parts =? 1)%nat then Raise InvalidTestPath
    else
      let file_name := strip_prefix (nth 0 parts "") (prefix self) in
      let parts := split "_"%char file_name in
      let parts := ([source_root self] ++ parts)%list in
      c1 <- glue_parts parts false ;;
      c2 <- glue_parts parts true ;;
      Return [c1; c2].

Definition new : TestLayout.t :=
  {| TestLayout.is_test_file := is_test_file;
     TestLayout.get_test_file := get_test_file;
     TestLayout.get_source_candidates := get_source_candidates |}.
End Methods.
End FlatLayout.

Module FollowHierarchyLayout.
Section Methods.
Variable os : OS.
Variable self : BaseTestLayout.

Definition is_test_file (some_file : string) : result bool :=
  if negb (startswith some_file (test_root self)) then Return false
  else
    some_file <- _relpath os some_file (test_root self) true ;;
    let parts := break_down some_file in
    Return (forallb (fun p => startswith p (prefix self)) parts).

Definition get_test_file (source_file : string) : result string :=
  if negb (startswith source_file (source_root self))
  then Raise (NotUnderSourceRoot source_file)
  else
    source_file <- _relpath os source_file (source_root self) true ;;
    let parts := break_down source_file in
    let parts := map (fun p => prefix self ++ p) parts in
    let parts := ([test_root self] ++ parts)%list in
    glue_parts parts false.

Definition get_source_candidates (test_file : string)
  : result (list string) :=
  if negb (startswith test_file (test_root self))
  then Raise (NotUnderTestRoot test_file)
  else
    test_file <- _relpath os test_file (test_root self) true ;;
    let parts := break_down test_file in
    let parts := map (fun p => strip_prefix p (prefix self)) parts in
    let parts := ([source_root self] ++ parts)%list in
    c1 <- glue_parts parts false ;;
    c2 <- glue_parts parts true ;;
    Return [c1; c2].

Definition new : TestLayout.t :=
  {| TestLayout.is_test_file := is_test_file;
     TestLayout.get_test_file := get_test_file;
     TestLayout.get_source_candidates := get_source_candidates |}.
End Methods.
End FollowHierarchyLayout.

(** [get_implementing_class()()]: the class named by
    [g:PyUnitTestsStructure], instantiated. *)
Definition get_implementing_class (os : OS) (vim : Vim)
  : result TestLayout.t :=
  let self := BaseTestLayout__init__ vim in
  let test_layout := PyUnitTestsStructure vim in
  if String.eqb test_layout "flat" then Return (FlatLayout.new os self)
  else if String.eqb test_layout "follow-hierarchy"
  then Return (FollowHierarchyLayout.new os self)
  else if String.eqb test_layout "side-by-side"
  then Return (SideBySideLayout.new self)
  else Raise (UnknownLayout test_layout).

(** *** The main functions *)

Section Main.
Variable os : OS.
Variable vim : Vim.

Definition is_home_dir (path : string) : bool :=
  String.eqb (realpath os path) (HOME os).

Definition is_fs_root (path : string) : bool :=
  String.eqb (realpath os path) "/"
  || (negb (ProjRootStopAtHomeDir vim =? 0)%Z && is_home_dir path).

(** The [for i in indicators] loop of [find_project_root]: does it
    return? *)
Definition has_indicator (path : string) : bool :=
  existsb (fun i => exists_ os (posixpath.join2 path i))
          (ProjRootIndicators vim).

(** The [while not is_fs_root(path)] loop of [find_project_root]. *)
Fixpoint find_project_root_loop (fuel : nat) (path : string)
  : result string :=
  match fuel with
  | O => OutOfFuel
  | S fuel' =>
      if negb (is_fs_root path) then
        if has_indicator path then Return (posixpath.normpath path)
        else find_project_root_loop fuel'
               (posixpath.join2 path posixpath.pardir)
      else Raise ProjectRootNotFound
  end.

Fixpoint find_project_root (fuel : nat) (path : string) : result string :=
  match fuel with
  | O => OutOfFuel
  | S fuel' =>
      if negb (isdir os path)
      then find_project_root fuel' (posixpath.dirname (realpath os path))
      else find_project_root_loop fuel' path
  end.

Definition find_source_root (fuel : nat) (path : string) : result string :=
  let source_root := PyUnitSourceRoot vim in
  root <- find_project_root fuel path ;;
  Return (posixpath.join2 root source_root).

Definition get_relative_source_path (fuel : nat) (path : string)
           (allow_outside_root : bool) : result string :=
  root <- find_source_root fuel path ;;
  if allow_outside_root || startswith (realpath os path) root
  then _relpath os path root true
  else Raise (Exception ("Path " ++ path ++ " is not in the source root.")).

Definition get_tests_root (fuel : nat) (path : string) : result string :=
  let loc := PyUnitTestsRoot vim in
  root <- find_project_root fuel path ;;
  Return (join posixpath.sep [root; loc]).

Definition get_test_file_for_source_file (fuel : nat) (path : string)
  : result string :=
  path <- get_relative_source_path fuel path false ;;
  impl <- get_implementing_class os vim ;;
  TestLayout.get_test_file impl path.

(** The generators local to [find_source_file_for_test_file], as the
    lists of what they yield, in order. *)
Fixpoint slashgenerator (length : nat)
         (select_from select_last_from : list string)
  : list (list string) :=
  match length with
  | O => map (fun opt => [opt]) select_last_from
  | S length' =>
      flat_map
        (fun opt =>
           map (fun x => opt :: x)
               (slashgenerator length' select_from select_last_from))
        select_from
  end.

Fixpoint interlace (x y : list string) : list string :=
  match x, y with
  | [], _ => y
  | _, [] => x
  | a :: x', b :: y' => a :: b :: interlace x' y'
  end.

(** The guesses of the flat branch, in the order the loop makes them. *)
Definition flat_guesses (src_root sourcefile : string) : list string :=
  let (stripped, extension) := posixpath.splitext sourcefile in
  let parts := split "_"%char stripped in
  let intermediate_pairs := ["/"; "_"] in
  let last_pair := [extension; "/__init__" ++ extension] in
  map (fun slashes =>
         posixpath.join2 src_root (join "" (interlace parts slashes)))
      (slashgenerator (List.length parts - 1) intermediate_pairs last_pair).

Definition find_source_file_for_test_file (fuel : nat) (path : string)
  : result string :=
  testsroot <- get_tests_root fuel path ;;
  let PyUnitTestPrefix := PyUnitTestPrefix vim in
  rel_path <- _relpath os path testsroot true ;;
  let parts := split posixpath.sep_char rel_path in
  let parts := map (fun p => strip_prefix p PyUnitTestPrefix) parts in
  let sourcefile := join posixpath.sep parts in
  src_root <- find_source_root fuel path ;;
  let tests_structure := PyUnitTestsStructure vim in
  if String.eqb tests_structure "flat" then
    match find (isfile os) (flat_guesses src_root sourcefile) with
    | Some guess =>
        if String.eqb guess "" then Raise SourceFileNotFound
        else Return guess
    | None => Raise SourceFileNotFound
    end
  else
    let sourcefile := posixpath.join2 src_root sourcefile in
    if negb (isfile os sourcefile) then
      let (filepath, extension) := posixpath.splitext sourcefile in
      let sourcefile :=
        join "" [filepath; posixpath.sep; "__init__"; extension] in
      if negb (isfile os sourcefile) then Raise SourceFileNotFound
      else Return sourcefile
    else Return sourcefile.

Definition is_test_file (fuel : nat) (path : string) : result bool :=
  root <- get_tests_root fuel path ;;
  let testroot := posixpath.abspath (getcwd os) root in
  let path := posixpath.abspath (getcwd os) path in
  Return (startswith path testroot).

End Main.

(* ================================================================== *)
(** ** Paths as sequences of segments

    The vocabulary of the specification's data model, in which the
    properties of the program are stated. *)

Module Path.

(** A segment that names a directory entry: not empty, neither [.]
    nor [..], and without a separator. *)
Definition segment (s : string) : bool :=
  negb (String.eqb s "") && negb (String.eqb s ".")
  && negb (String.eqb s "..") && negb (contains "/"%char s).

(** The segments of a path: [[x for x in p.split(sep) if x]]. *)
Definition components (p : string) : list string :=
  filter stdlib.nonempty (split posixpath.sep_char p).

(** A component [normpath] keeps. *)
Definition kept (p : string) : Prop :=
  p <> "" /\ contains "/"%char p = false.

(** What [join] has built so far, in a run over segments. *)
Definition joined (acc : string) : Prop :=
  acc <> "" /\ endswith acc "/" = false.

(** The path [abspath] normalises. *)
Definition anchored (cwd x : string) : string :=
  if posixpath.isabs x then x else posixpath.join2 cwd x.

(** [root/d1/.../dn/m.py], the file of module [m]. *)
Definition module_path (root : string) (dirs : list string) (m : string)
  : string :=
  root ++ "/" ++ join "/" (dirs ++ [m ++ ".py"]).

(** [root/d1/.../dn/__init__.py], the package-init file of [dn]. *)
Definition package_path (root : string) (dirs : list string) : string :=
  root ++ "/" ++ join "/" (dirs ++ ["__init__.py"]).

(** [path] lies under [root]: the segments of [root] begin those of
    [path]. *)
Definition lies_under (path root : string) : Prop :=
  exists rest, components path = (components root ++ rest)%list.

End Path.

(** The [k]-th directory the loop of [find_project_root] looks at:
    [path] followed by [k] times [/..]. *)
Definition ancestor (k : nat) (path : string) : string :=
  Nat.iter k (fun p => posixpath.join2 p posixpath.pardir) path.

(** The same configuration, with another test layout chosen. *)
Definition with_structure (vim : Vim) (structure : string) : Vim :=
  {| PyUnitSourceRoot := PyUnitSourceRoot vim;
     PyUnitTestsRoot := PyUnitTestsRoot vim;
     PyUnitTestPrefix := PyUnitTestPrefix vim;
     PyUnitTestsStructure := structure;
     ProjRootStopAtHomeDir := ProjRootStopAtHomeDir vim;
     ProjRootIndicators := ProjRootIndicators vim |}.

(** Mapping a source file to its test file and back finds it again. *)
Definition round_trips (layout : TestLayout.t) (source_file : string) : Prop :=
  exists test_file candidates,
    TestLayout.get_test_file layout source_file = Return test_file
    /\ TestLayout.get_source_candidates layout test_file = Return candidates
    /\ In source_file candidates.

(* ================================================================== *)
(** ** A concrete project, for examples

    A project checked out at [/proj], marked by its [.git] directory,
    with sources under [src] and tests under [tests]; there are no
    symbolic links, so [realpath] is [abspath]. *)

Module Example.

Definition files : list string :=
  ["/proj/src/pkg/__init__.py"; "/proj/src/pkg/mod.py";
   "/proj/src/pkg_mod.py";
   "/proj/tests/test_pkg_mod.py"; "/etc/passwd"; "/home/u/.project"].

Definition dirs : list string :=
  ["/"; "/etc"; "/home"; "/home/u"; "/home/u/work"; "/proj";
   "/proj/.git"; "/proj/src";
   "/proj/src/pkg"; "/proj/tests"; "/proj/tests_extra"].

Definition mem (l : list string) (s : string) : bool :=
  existsb (String.eqb s) l.

Definition os (cwd : string) (relpath_available : bool) : OS :=
  {| getcwd := cwd;
     HOME := "/home/u";
     realpath := posixpath.abspath cwd;
     exists_ := fun p => mem (files ++ dirs)%list (posixpath.abspath cwd p);
     isfile := fun p => mem files (posixpath.abspath cwd p);
     isdir := fun p => mem dirs (posixpath.abspath cwd p);
     has_relpath := relpath_available |}.

Definition vim (structure : string) (indicators : list string) : Vim :=
  {| PyUnitSourceRoot := "src";
     PyUnitTestsRoot := "tests";
     PyUnitTestPrefix := "test_";
     PyUnitTestsStructure := structure;
     ProjRootStopAtHomeDir := 1;
     ProjRootIndicators := indicators |}.

Definition layout : BaseTestLayout :=
  BaseTestLayout__init__ (vim "flat" [".git"]).

End Example.

(* ================================================================== *)
(** ** Opening buffers

    The two functions that compute the Vim command which opens the
    counterpart.  A failing dictionary lookup ([KeyError]) is the outcome
    [None]. *)

(** The Vim side these functions read: [g:PyUnitTestsSplitWindow], and
    the Vim function [bufexists] on a path. *)
Record VimWindow : Type := {
  PyUnitTestsSplitWindow : string;
  bufexists : string -> Z
}.

(** [d[k]] for a dictionary given by its items. *)
Fixpoint getitem (d : list (string * string)) (k : string) : option string :=
  match d with
  | [] => None
  | (k', v) :: d' => if String.eqb k k' then Some v else getitem d' k
  end.

Module split_cmd.

Definition invert : list (string * string) :=
  [("top", "bottom"); ("left", "right");
   ("right", "left"); ("bottom", "top"); ("no", "no")].

Definition mapping : list (string * string) :=
  [("top", "lefta"); ("left", "vert lefta");
   ("right", "vert rightb"); ("bottom", "rightb"); ("no", "")].

End split_cmd.

Definition _vim_split_cmd (w : VimWindow) (inverted : bool) : option string :=
  let splitoff_direction := PyUnitTestsSplitWindow w in
  if inverted then
    match getitem split_cmd.invert splitoff_direction with
    | Some d => getitem split_cmd.mapping d
    | None => None
    end
  else getitem split_cmd.mapping splitoff_direction.

Definition _open_buffer_cmd (w : VimWindow) (path : string) (opposite : bool)
  : option string :=
  match _vim_split_cmd w opposite with
  | None => None
  | Some splitopts =>
      let splitcmd :=
        if String.eqb splitopts "" then "edit"
        else if negb (bufexists w path =? 0)%Z
             then splitopts ++ " sbuffer"
             else splitopts ++ " split" in
      Some (splitcmd ++ " " ++ path)
  end.

(** The same Vim side, with another split direction configured. *)
Definition with_direction (w : VimWindow) (direction : string) : VimWindow :=
  {| PyUnitTestsSplitWindow := direction; bufexists := bufexists w |}.

(** The number of slashes [normpath] keeps in front of an absolute
    path. *)
Definition initial_slashes (path : string) : nat :=
  if startswith path "//" && negb (startswith path "///") then 2 else 1.

(* ================================================================== *)
(** * Verification *)

(** ** First facts *)

Lemma append_nonempty_l (a b : string) : a <> "" -> a ++ b <> "".
Proof. destruct a; [congruence | discriminate]. Qed.

Lemma normpath_nonempty (p : string) : posixpath.normpath p <> "".
Proof.
  unfold posixpath.normpath.
  destruct (String.eqb p ""); [discriminate|].
  match goal with |- (if String.eqb ?x "" then _ else _) <> _ =>
    destruct (String.eqb_spec x "") end; [discriminate | assumption].
Qed.

Lemma join2_nonempty (a b : string) : a <> "" -> posixpath.join2 a b <> "".
Proof.
  intros Ha. unfold posixpath.join2.
  destruct (startswith b "/") eqn:Hb.
  - destruct b; [discriminate | discriminate].
  - destruct (_ || _); now apply append_nonempty_l.
Qed.

(** ** Facts about the [str] builtins *)

Module PyStrFacts.

Lemma append_assoc (a b c : string) : (a ++ b) ++ c = a ++ (b ++ c).
Proof. induction a as [|x a IH]; simpl; [|rewrite IH]; reflexivity. Qed.

Lemma append_empty_r (a : string) : a ++ "" = a.
Proof. induction a as [|x a IH]; simpl; [|rewrite IH]; reflexivity. Qed.

Lemma length_append (a b : string) :
  String.length (a ++ b) = (String.length a + String.length b)%nat.
Proof. induction a as [|x a IH]; simpl; [|rewrite IH]; reflexivity. Qed.

Lemma contains_append (c : ascii) (a b : string) :
  contains c (a ++ b) = contains c a || contains c b.
Proof.
  induction a as [|x a IH]; simpl; [reflexivity|].
  now rewrite IH, orb_assoc.
Qed.

(** *** [startswith], [drop], [take] *)

Lemma startswith_append (p s : string) : startswith (p ++ s) p = true.
Proof.
  unfold startswith. induction p as [|x p IH]; simpl.
  - now destruct s.
  - destruct (ascii_dec x x) as [_|N]; [exact IH | now elim N].
Qed.

Lemma startswith_empty (s : string) : startswith s "" = true.
Proof. now destruct s. Qed.

Lemma startswith_cons (a b : ascii) (p s : string) :
  startswith (String b s) (String a p) = Ascii.eqb a b && startswith s p.
Proof.
  unfold startswith. cbn [String.prefix].
  destruct (ascii_dec a b) as [->|N].
  - now rewrite Ascii.eqb_refl.
  - apply Ascii.eqb_neq in N. now rewrite N.
Qed.

Lemma drop_append (p s : string) : drop (String.length p) (p ++ s) = s.
Proof. induction p as [|x p IH]; simpl; [now destruct s | exact IH]. Qed.

Lemma drop_append_more (n : nat) (p s : string) :
  drop (String.length p + n) (p ++ s) = drop n s.
Proof. induction p as [|x p IH]; simpl; [reflexivity | exact IH]. Qed.

Lemma take_append (p s : string) : take (String.length p) (p ++ s) = p.
Proof.
  induction p as [|x p IH]; simpl; [now destruct s | now rewrite IH].
Qed.

Lemma take_drop (n : nat) (s : string) : take n s ++ drop n s = s.
Proof.
  revert s. induction n as [|n IH]; intros [|x s]; simpl;
    try reflexivity. now rewrite IH.
Qed.

(** *** [endswith] *)

Lemma endswith_append (s suf : string) : endswith (s ++ suf) suf = true.
Proof.
  unfold endswith. rewrite length_append.
  replace (String.length s + String.length suf - String.length suf)%nat
    with (String.length s) by lia.
  rewrite drop_append, String.eqb_refl, andb_true_r.
  apply Nat.leb_le. lia.
Qed.

Lemma endswith_append_long (x b suf : string) :
  (String.length suf <= String.length b)%nat ->
  endswith (x ++ b) suf = endswith b suf.
Proof.
  intros Hlen. unfold endswith. rewrite length_append.
  replace (String.length x + String.length b - String.length suf)%nat
    with (String.length x + (String.length b - String.length suf))%nat
    by lia.
  rewrite drop_append_more. f_equal.
  apply Nat.leb_le in Hlen as Hb. rewrite Hb. apply Nat.leb_le. lia.
Qed.

Lemma endswith_contains (s : string) (c : ascii) :
  endswith s (String c "") = true -> contains c s = true.
Proof.
  unfold endswith. intros H. apply andb_prop in H as [_ H].
  apply String.eqb_eq in H.
  rewrite <- (take_drop (String.length s - String.length (String c "")) s).
  rewrite H, contains_append. simpl. rewrite Ascii.eqb_refl.
  now rewrite orb_true_r.
Qed.

Lemma drop_end_append (s suf : string) :
  drop_end (String.length suf) (s ++ suf) = s.
Proof.
  unfold drop_end. rewrite length_append.
  replace (String.length s + String.length suf - String.length suf)%nat
    with (String.length s) by lia.
  apply take_append.
Qed.

(** *** [split] and [join] *)

Lemma split_nonnil (c : ascii) (s : string) : split c s <> [].
Proof.
  destruct s as [|a s]; simpl; [discriminate|].
  destruct (Ascii.eqb a c); [discriminate|].
  destruct (split c s); discriminate.
Qed.

Lemma split_no_sep (c : ascii) (s : string) :
  contains c s = false -> split c s = [s].
Proof.
  induction s as [|a s IH]; simpl; [reflexivity|].
  intros H. apply orb_false_iff in H as [Ha Hs].
  rewrite Ha, (IH Hs). reflexivity.
Qed.

Lemma split_append (c : ascii) (a b : string) :
  split c (a ++ String c b) = (split c a ++ split c b)%list.
Proof.
  induction a as [|x a IH]; simpl.
  - now rewrite Ascii.eqb_refl.
  - destruct (Ascii.eqb x c); [now rewrite IH|].
    rewrite IH. pose proof (split_nonnil c a) as Hn.
    destruct (split c a); [congruence | reflexivity].
Qed.

Lemma split_parts_no_sep (c : ascii) (s : string) :
  Forall (fun p => contains c p = false) (split c s).
Proof.
  induction s as [|a s IH]; simpl.
  - now constructor.
  - destruct (Ascii.eqb a c) eqn:E.
    + now constructor.
    + destruct (split c s) as [|h t]; [now constructor; simpl; rewrite ?E|].
      inversion IH; subst. constructor; [|assumption].
      simpl. now rewrite E.
Qed.

Lemma join_cons (sep a : string) (l : list string) :
  l <> [] -> join sep (a :: l) = a ++ sep ++ join sep l.
Proof. destruct l; [congruence | reflexivity]. Qed.

Lemma join_split (c : ascii) (s : string) :
  join (String c "") (split c s) = s.
Proof.
  induction s as [|a s IH]; simpl; [reflexivity|].
  destruct (Ascii.eqb_spec a c) as [->|N].
  - rewrite join_cons by apply split_nonnil. simpl. now rewrite IH.
  - pose proof (split_nonnil c s) as Hn.
    destruct (split c s) as [|h t]; [congruence|].
    destruct t as [|h' t]; simpl in *; now rewrite <- IH.
Qed.

Lemma split_join (c : ascii) (l : list string) :
  l <> [] -> Forall (fun p => contains c p = false) l ->
  split c (join (String c "") l) = l.
Proof.
  induction l as [|a l IH]; [congruence|]. intros _ H.
  inversion H as [|? ? Ha Hl]; subst.
  destruct l as [|b l].
  - simpl. now apply split_no_sep.
  - rewrite join_cons by discriminate.
    change (a ++ String c "" ++ join (String c "") (b :: l))
      with (a ++ String c (join (String c "") (b :: l))).
    rewrite split_append, (split_no_sep c a Ha), IH; auto. discriminate.
Qed.

Lemma join_app (sep : string) (l1 l2 : list string) :
  l1 <> [] -> l2 <> [] ->
  join sep (l1 ++ l2) = join sep l1 ++ sep ++ join sep l2.
Proof.
  induction l1 as [|a l1 IH]; [congruence|]. intros _ H2.
  destruct l1 as [|b l1].
  - simpl app. now rewrite join_cons.
  - change ((a :: b :: l1) ++ l2)%list with (a :: ((b :: l1) ++ l2))%list.
    rewrite join_cons by discriminate.
    rewrite IH by (auto; discriminate).
    rewrite (join_cons sep a (b :: l1)) by discriminate.
    now rewrite !append_assoc.
Qed.

End PyStrFacts.

(** ** Facts about [posixpath] *)

Module PathFacts.
Import PyStrFacts posixpath Path.

Lemma segment_spec (s : string) :
  segment s = true ->
  s <> "" /\ s <> "." /\ s <> ".." /\ contains "/"%char s = false.
Proof.
  unfold segment. intros H.
  repeat (apply andb_prop in H as [H ?]).
  repeat match goal with
         | H : negb _ = true |- _ => apply negb_true_iff in H
         | H : String.eqb _ _ = false |- _ => apply String.eqb_neq in H
         end.
  auto.
Qed.

Lemma isabs_cons (a : ascii) (s : string) :
  isabs (String a s) = Ascii.eqb a "/"%char.
Proof.
  unfold isabs. change "/" with (String "/"%char "").
  rewrite startswith_cons, startswith_empty, andb_true_r.
  apply Ascii.eqb_sym.
Qed.

Lemma isabs_append (a b : string) : a <> "" -> isabs (a ++ b) = isabs a.
Proof. destruct a; [congruence|]. intros _. simpl. now rewrite !isabs_cons. Qed.

Lemma segment_not_abs (s : string) : segment s = true -> isabs s = false.
Proof.
  intros H. apply segment_spec in H as (Hne & _ & _ & Hc).
  destruct s as [|a s]; [congruence|]. rewrite isabs_cons.
  simpl in Hc. now apply orb_false_iff in Hc as [-> _].
Qed.

Lemma segment_not_endswith_sep (s : string) :
  segment s = true -> endswith s "/" = false.
Proof.
  intros H. apply segment_spec in H as (_ & _ & _ & Hc).
  destruct (endswith s "/") eqn:E; [|reflexivity].
  apply endswith_contains in E. congruence.
Qed.

(** *** [join] *)

Lemma join2_segment (acc b : string) :
  joined acc -> segment b = true ->
  join2 acc b = acc ++ "/" ++ b /\ joined (acc ++ "/" ++ b).
Proof.
  intros [Hne Hend] Hb. unfold join2.
  pose proof (segment_not_abs b Hb) as Habs. unfold isabs in Habs.
  rewrite Habs, Hend. apply String.eqb_neq in Hne as Hne'. rewrite Hne'.
  simpl orb. split; [reflexivity|]. split.
  - now apply append_nonempty_l.
  - rewrite <- append_assoc. rewrite endswith_append_long.
    + now apply segment_not_endswith_sep.
    + apply segment_spec in Hb as (Hb & _). destruct b; [congruence|].
      simpl. lia.
Qed.

Lemma join_segments (acc : string) (p : list string) :
  joined acc -> Forall (fun s => segment s = true) p ->
  join acc p = PyStr.join "/" (acc :: p).
Proof.
  revert acc. induction p as [|b p IH]; intros acc Hacc Hp.
  - reflexivity.
  - inversion Hp as [|? ? Hb Hp']; subst.
    destruct (join2_segment acc b Hacc Hb) as [E J].
    unfold join in *. simpl fold_left. rewrite E, (IH _ J Hp').
    rewrite (join_cons "/" acc (b :: p)) by discriminate.
    destruct p as [|c p]; [reflexivity|].
    rewrite !join_cons by discriminate. now rewrite !append_assoc.
Qed.

Lemma segment_joined (s : string) : segment s = true -> joined s.
Proof.
  intros H. split.
  - now apply segment_spec in H.
  - now apply segment_not_endswith_sep.
Qed.

(** *** [normpath] *)

Lemma norm_step_segment (k : nat) (acc : list string) (s : string) :
  segment s = true -> norm_step k acc s = (acc ++ [s])%list.
Proof.
  intros H. apply segment_spec in H as (H1 & H2 & H3 & _).
  unfold norm_step.
  apply String.eqb_neq in H1, H2, H3. now rewrite H1, H2, H3.
Qed.

Lemma fold_norm_step_segments (k : nat) (segs acc : list string) :
  Forall (fun s => segment s = true) segs ->
  fold_left (norm_step k) segs acc = (acc ++ segs)%list.
Proof.
  intros H. revert acc. induction H as [|s segs Hs _ IH]; intros acc; simpl.
  - now rewrite app_nil_r.
  - rewrite norm_step_segment by assumption. rewrite IH.
    now rewrite <- app_assoc.
Qed.

Lemma norm_step_absolute (a b : nat) (acc : list string) (s : string) :
  norm_step (S a) acc s = norm_step (S b) acc s.
Proof. reflexivity. Qed.

Lemma fold_norm_step_absolute (a b : nat) (l acc : list string) :
  fold_left (norm_step (S a)) l acc = fold_left (norm_step (S b)) l acc.
Proof.
  revert acc. induction l as [|s l IH]; intros acc; simpl; [reflexivity|].
  now rewrite IH.
Qed.

Lemma Forall_removelast {A : Type} (P : A -> Prop) (l : list A) :
  Forall P l -> Forall P (removelast l).
Proof.
  induction 1 as [|x l Hx Hl IH]; simpl; [constructor|].
  destruct l; [constructor | now constructor].
Qed.

Lemma norm_step_kept (k : nat) (acc : list string) (s : string) :
  Forall kept acc -> contains "/"%char s = false ->
  Forall kept (norm_step k acc s).
Proof.
  intros Hacc Hs. unfold norm_step.
  destruct (String.eqb_spec s ""); simpl; [assumption|].
  destruct (String.eqb s "."); [assumption|].
  destruct (_ || _).
  - apply Forall_app. split; [assumption|]. repeat constructor; assumption.
  - now apply Forall_removelast.
Qed.

Lemma fold_norm_step_kept (k : nat) (l acc : list string) :
  Forall kept acc -> Forall (fun p => contains "/"%char p = false) l ->
  Forall kept (fold_left (norm_step k) l acc).
Proof.
  intros Hacc Hl. revert acc Hacc.
  induction Hl as [|s l Hs _ IH]; intros acc Hacc; simpl; [assumption|].
  apply IH. now apply norm_step_kept.
Qed.

Lemma filter_nonempty_kept (l : list string) :
  Forall kept l -> filter stdlib.nonempty l = l.
Proof.
  induction 1 as [|x l [Hx _] _ IH]; simpl; [reflexivity|].
  unfold stdlib.nonempty at 1. apply String.eqb_neq in Hx. rewrite Hx.
  simpl. now rewrite IH.
Qed.

Lemma components_times (k : nat) (s : string) :
  components (times sep_char k ++ s) = components s.
Proof.
  induction k as [|k IH]; simpl; [reflexivity|].
  unfold components in *. simpl. exact IH.
Qed.

Lemma components_join (l : list string) :
  Forall kept l -> components (PyStr.join sep l) = l.
Proof.
  intros H. unfold components. destruct l as [|a l]; [reflexivity|].
  change sep with (String sep_char ""). rewrite split_join.
  - now apply filter_nonempty_kept.
  - discriminate.
  - eapply Forall_impl; [|exact H]. now intros p [_ Hp].
Qed.

Lemma components_normpath (q : string) :
  isabs q = true ->
  components (normpath q)
  = fold_left (norm_step 1) (split sep_char q) [].
Proof.
  intros Habs. unfold normpath.
  destruct (String.eqb_spec q "") as [->|_]; [discriminate|].
  unfold isabs in Habs. rewrite Habs.
  set (k := if startswith q "//" && negb (startswith q "///")
            then 2%nat else 1%nat).
  assert (Hk : exists k', k = S k')
    by (subst k; destruct (_ && _); eauto).
  destruct Hk as [k' Hk]. rewrite Hk.
  rewrite (fold_norm_step_absolute k' 0).
  set (comps := fold_left (norm_step 1) (split sep_char q) []).
  assert (Hkept : Forall kept comps).
  { apply fold_norm_step_kept; [constructor | apply split_parts_no_sep]. }
  simpl times. simpl append at 1.
  destruct (String.eqb_spec (String sep_char (times sep_char k' ++ PyStr.join sep comps)) "");
    [discriminate|].
  change (String sep_char (times sep_char k'))
    with (times sep_char (S k')).
  rewrite components_times. now apply components_join.
Qed.

End PathFacts.

(** ** [os.path.relpath] of a path below its start *)

Module RelpathFacts.
Import PyStrFacts PathFacts posixpath Path.

Lemma commonprefix_app (l segs : list string) :
  stdlib.commonprefix l (l ++ segs) = l.
Proof.
  induction l as [|x l IH]; simpl.
  - now destruct segs.
  - now rewrite String.eqb_refl, IH.
Qed.

Section Under.
Variable cwd : string.
Hypothesis cwd_absolute : isabs cwd = true.

Local Abbreviation anchored := (Path.anchored cwd).

Lemma anchored_absolute (x : string) : isabs (anchored x) = true.
Proof.
  unfold anchored. destruct (isabs x) eqn:E; [assumption|].
  unfold join2. unfold isabs in E. rewrite E.
  assert (cwd <> "") by (destruct cwd; [discriminate | discriminate]).
  destruct (_ || _); now rewrite isabs_append.
Qed.

Lemma anchored_under (root rest : string) :
  root <> "" ->
  anchored (root ++ "/" ++ rest) = anchored root ++ "/" ++ rest.
Proof.
  intros Hroot. unfold anchored. rewrite isabs_append by assumption.
  destruct (isabs root) eqn:E; [reflexivity|].
  unfold join2. pose proof (isabs_append root ("/" ++ rest) Hroot) as E'.
  unfold isabs in E, E'. rewrite E', E.
  destruct (_ || _); now rewrite !append_assoc.
Qed.

Lemma components_abspath_under (root : string) (segs : list string) :
  root <> "" -> segs <> [] ->
  Forall (fun s => segment s = true) segs ->
  components (abspath cwd (root ++ "/" ++ PyStr.join "/" segs))
  = (components (abspath cwd root) ++ segs)%list.
Proof.
  intros Hroot Hne Hsegs. unfold abspath. fold (anchored root).
  fold (anchored (root ++ "/" ++ PyStr.join "/" segs)).
  rewrite !components_normpath by apply anchored_absolute.
  rewrite anchored_under by assumption.
  change ("/" ++ PyStr.join "/" segs)
    with (String sep_char (PyStr.join (String sep_char "") segs)).
  rewrite split_append, split_join, fold_left_app; auto.
  - now apply fold_norm_step_segments.
  - eapply Forall_impl; [|exact Hsegs].
    intros s Hs. now apply segment_spec in Hs.
Qed.

(** [relpath] inverts the joining of segments under a root. *)
Lemma relpath_under (root : string) (segs : list string) :
  root <> "" -> segs <> [] ->
  Forall (fun s => segment s = true) segs ->
  stdlib.relpath cwd (root ++ "/" ++ PyStr.join "/" segs) root
  = Return (PyStr.join "/" segs).
Proof.
  intros Hroot Hne Hsegs. unfold stdlib.relpath.
  assert (Hp : root ++ "/" ++ PyStr.join "/" segs <> "")
    by now apply append_nonempty_l.
  apply String.eqb_neq in Hp. rewrite Hp.
  fold (components (abspath cwd root)).
  fold (components (abspath cwd (root ++ "/" ++ PyStr.join "/" segs))).
  rewrite components_abspath_under by assumption.
  set (l := components (abspath cwd root)).
  rewrite commonprefix_app, Nat.sub_diag. simpl repeat. simpl app.
  rewrite skipn_app, skipn_all, Nat.sub_diag. simpl.
  destruct segs as [|a p]; [congruence|].
  inversion Hsegs; subst.
  rewrite join_segments; auto using segment_joined.
Qed.
(** [relpath] maps a path and itself to [.]. *)
Lemma relpath_same (x : string) :
  x <> "" -> stdlib.relpath cwd x x = Return ".".
Proof.
  intros Hx. unfold stdlib.relpath.
  apply String.eqb_neq in Hx. rewrite Hx.
  set (l := filter stdlib.nonempty (split sep_char (abspath cwd x))).
  pose proof (commonprefix_app l []) as H. rewrite app_nil_r in H.
  rewrite H, Nat.sub_diag, skipn_all. reflexivity.
Qed.

(** [relpath] maps [base/child] and [base] to [child]. *)
Lemma relpath_child (base child : string) :
  base <> "" -> segment child = true ->
  stdlib.relpath cwd (base ++ "/" ++ child) base = Return child.
Proof.
  intros Hbase Hchild.
  apply (relpath_under base [child]); auto. discriminate.
Qed.
End Under.

End RelpathFacts.

(** ** The helpers shared by the layouts *)

Module LayoutFacts.
Import PyStrFacts PathFacts Path.

Lemma append_inj_r (a b suf : string) : a ++ suf = b ++ suf -> a = b.
Proof.
  intros H. rewrite <- (drop_end_append a suf), <- (drop_end_append b suf).
  now rewrite H.
Qed.

Lemma strip_prefix_append (p s : string) : strip_prefix (p ++ s) p = s.
Proof.
  unfold strip_prefix. rewrite startswith_append, andb_true_r.
  destruct (String.eqb_spec p "") as [->|_]; simpl; [reflexivity|].
  apply drop_append.
Qed.

Lemma map_strip_prefix (p : string) (l : list string) :
  map (fun s => strip_prefix s p) (map (fun s => p ++ s) l) = l.
Proof.
  rewrite map_map. rewrite <- (map_id l) at 2. apply map_ext.
  intros s. apply strip_prefix_append.
Qed.

Lemma module_file_segment (m : string) :
  contains "/"%char m = false -> segment (m ++ ".py") = true.
Proof.
  intros Hm. unfold segment. rewrite contains_append, Hm. simpl.
  rewrite andb_true_r.
  assert (H : forall x, (String.length x < 3)%nat -> m ++ ".py" <> x).
  { intros x Hx E. rewrite <- E, length_append in Hx. simpl in Hx. lia. }
  rewrite !andb_true_iff, !negb_true_iff, !String.eqb_neq.
  repeat split; apply H; simpl; lia.
Qed.

Lemma prefixed_segment (p s : string) :
  contains "/"%char p = false -> segment s = true ->
  segment (p ++ s) = true.
Proof.
  intros Hp Hs. apply segment_spec in Hs as (H1 & H2 & H3 & H4).
  unfold segment. rewrite contains_append, Hp, H4. simpl.
  rewrite andb_true_r, !andb_true_iff, !negb_true_iff, !String.eqb_neq.
  assert (E0 : forall q, q ++ s = "" -> False).
  { intros [|x q] E; simpl in E; [contradiction | discriminate]. }
  assert (E1 : forall q, q ++ s = "." -> False).
  { intros [|x q] E; simpl in E; [contradiction|].
    injection E as _ E. eauto. }
  repeat split; intros E; eauto.
  destruct p as [|x p]; simpl in E; [contradiction|].
  injection E as _ E. eauto.
Qed.

Lemma prefixed_segments (p : string) (l : list string) :
  contains "/"%char p = false ->
  Forall (fun s => segment s = true) l ->
  Forall (fun s => segment s = true) (map (fun s => p ++ s) l).
Proof.
  intros Hp H. apply Forall_map. eapply Forall_impl; [|exact H].
  intros s. now apply prefixed_segment.
Qed.

Lemma segments_no_sep (l : list string) :
  Forall (fun s => segment s = true) l ->
  Forall (fun s => contains "/"%char s = false) l.
Proof.
  apply Forall_impl. intros s Hs. now apply segment_spec in Hs.
Qed.

(** *** [break_down] *)

Lemma break_down_split (path : string) (front : list string) (f : string) :
  split posixpath.sep_char path = (front ++ [f])%list ->
  break_down path
  = if String.eqb f "__init__.py" then front
    else if endswith f ".py"
         then (front ++ [drop_end 3 f])%list
         else (front ++ [f])%list.
Proof.
  intros E. unfold break_down. rewrite E.
  rewrite length_app, Nat.add_comm. simpl Nat.ltb.
  now rewrite last_last, removelast_last.
Qed.

Lemma break_down_module (front : list string) (m : string) :
  Forall (fun s => contains "/"%char s = false) front ->
  contains "/"%char m = false -> m <> "__init__" ->
  break_down (join "/" (front ++ [m ++ ".py"])) = (front ++ [m])%list.
Proof.
  intros Hfront Hm Hinit.
  rewrite (break_down_split _ front (m ++ ".py")).
  - destruct (String.eqb_spec (m ++ ".py") "__init__.py") as [E|_].
    + change "__init__.py" with ("__init__" ++ ".py") in E.
      apply append_inj_r in E. contradiction.
    + rewrite endswith_append.
      pose proof (drop_end_append m ".py") as D.
      simpl String.length in D. now rewrite D.
  - apply (split_join "/"%char).
    + now destruct front.
    + apply Forall_app. split; [assumption|]. constructor; [|constructor].
      rewrite contains_append, Hm. reflexivity.
Qed.

Lemma break_down_package (front : list string) :
  Forall (fun s => contains "/"%char s = false) front ->
  break_down (join "/" (front ++ ["__init__.py"])) = front.
Proof.
  intros Hfront. rewrite (break_down_split _ front "__init__.py").
  - reflexivity.
  - apply (split_join "/"%char).
    + now destruct front.
    + apply Forall_app. split; [assumption|]. now repeat constructor.
Qed.

(** *** [glue_parts] *)

Lemma glue_parts_module (front : list string) (m : string) :
  glue_parts (front ++ [m]) false
  = Return (join "/" (front ++ [m ++ ".py"])).
Proof.
  unfold glue_parts, last_part.
  destruct (front ++ [m])%list eqn:E.
  - now destruct front.
  - rewrite <- E. simpl bind. now rewrite last_last, removelast_last.
Qed.

Lemma glue_parts_package (parts : list string) :
  glue_parts parts true = Return (join "/" (parts ++ ["__init__.py"])).
Proof. reflexivity. Qed.

Lemma join_under (root : string) (l : list string) :
  l <> [] -> join "/" (root :: l) = root ++ "/" ++ join "/" l.
Proof. apply join_cons. Qed.

Lemma contains_join (c : ascii) (sep : string) (l : list string) :
  contains c sep = false -> Forall (fun s => contains c s = false) l ->
  contains c (join sep l) = false.
Proof.
  intros Hsep. induction 1 as [|a l Ha Hl IH]; [reflexivity|].
  destruct l as [|b l]; [exact Ha|].
  rewrite join_cons by discriminate.
  now rewrite !contains_append, Ha, Hsep, IH.
Qed.

End LayoutFacts.

(** ** The layouts, on module files and package-init files *)

Module RoundTrip.
Import PyStrFacts PathFacts RelpathFacts LayoutFacts Path.

Section Layouts.
Variable os : OS.
Variable self : BaseTestLayout.
Hypothesis relpath_available : has_relpath os = true.
Hypothesis cwd_absolute : posixpath.isabs (getcwd os) = true.
Hypothesis source_root_given : source_root self <> "".
Hypothesis test_root_given : test_root self <> "".
Hypothesis prefix_no_sep : contains "/"%char (prefix self) = false.

Local Abbreviation sr := (source_root self).
Local Abbreviation tr := (test_root self).
Local Abbreviation pre := (prefix self).

Lemma _relpath_under (root : string) (segs : list string) :
  root <> "" -> segs <> [] ->
  Forall (fun s => segment s = true) segs ->
  _relpath os (root ++ "/" ++ join "/" segs) root true
  = Return (join "/" segs).
Proof.
  intros. unfold _relpath. rewrite relpath_available. simpl andb.
  now apply relpath_under.
Qed.

Lemma module_segments (dirs : list string) (m : string) :
  Forall (fun s => segment s = true) dirs ->
  contains "/"%char m = false ->
  Forall (fun s => segment s = true) (dirs ++ [m ++ ".py"]).
Proof.
  intros Hd Hm. apply Forall_app. split; [assumption|].
  constructor; [|constructor]. now apply module_file_segment.
Qed.

(** *** FollowHierarchy *)

Lemma follow_hierarchy_test_file_of_parts (path : string)
      (dirs : list string) (m : string) :
  startswith path sr = true ->
  _relpath os path sr true = Return (join "/" (dirs ++ [m ++ ".py"])) ->
  Forall (fun s => contains "/"%char s = false) dirs ->
  contains "/"%char m = false -> m <> "__init__" ->
  FollowHierarchyLayout.get_test_file os self path
  = Return (module_path tr (map (fun s => pre ++ s) dirs) (pre ++ m)).
Proof.
  intros Hstart Hrel Hd Hm Hinit.
  unfold FollowHierarchyLayout.get_test_file.
  rewrite Hstart. cbn [negb]. rewrite Hrel. cbn [bind].
  rewrite break_down_module by assumption.
  rewrite map_app. cbn [map].
  cbn [app]. rewrite app_comm_cons, glue_parts_module.
  unfold module_path. rewrite <- app_comm_cons.
  rewrite join_under; [reflexivity|]. now destruct (map _ dirs).
Qed.

Lemma follow_hierarchy_test_file (dirs : list string) (m : string) :
  Forall (fun s => segment s = true) dirs ->
  contains "/"%char m = false -> m <> "__init__" ->
  FollowHierarchyLayout.get_test_file os self (module_path sr dirs m)
  = Return (module_path tr (map (fun s => pre ++ s) dirs) (pre ++ m)).
Proof.
  intros Hd Hm Hinit. apply follow_hierarchy_test_file_of_parts; auto.
  - apply startswith_append.
  - apply _relpath_under; auto using module_segments.
    now destruct dirs.
  - now apply segments_no_sep.
Qed.

Lemma follow_hierarchy_candidates (dirs : list string) (m : string) :
  Forall (fun s => segment s = true) dirs ->
  contains "/"%char m = false -> pre ++ m <> "__init__" ->
  FollowHierarchyLayout.get_source_candidates os self
    (module_path tr (map (fun s => pre ++ s) dirs) (pre ++ m))
  = Return [module_path sr dirs m; package_path sr (dirs ++ [m])].
Proof.
  intros Hd Hm Hinit.
  assert (Hpm : contains "/"%char (pre ++ m) = false)
    by now rewrite contains_append, prefix_no_sep, Hm.
  assert (Hpd : Forall (fun s => segment s = true)
                       (map (fun s => pre ++ s) dirs))
    by now apply prefixed_segments.
  unfold FollowHierarchyLayout.get_source_candidates, module_path.
  rewrite startswith_append. cbn [negb].
  rewrite _relpath_under; auto using module_segments;
    [|now destruct (map _ dirs)].
  cbn [bind]. rewrite break_down_module; auto using segments_no_sep.
  rewrite map_app, map_strip_prefix. cbn [map].
  rewrite strip_prefix_append.
  cbn [app]. rewrite app_comm_cons, glue_parts_module, glue_parts_package.
  cbn [bind]. unfold package_path. rewrite <- !app_comm_cons.
  rewrite !join_under; [reflexivity| |]; now destruct dirs.
Qed.

Lemma follow_hierarchy_test_file_package (dirs : list string) (d : string) :
  Forall (fun s => segment s = true) (dirs ++ [d]) ->
  FollowHierarchyLayout.get_test_file os self
    (package_path sr (dirs ++ [d]))
  = Return (module_path tr (map (fun s => pre ++ s) dirs) (pre ++ d)).
Proof.
  intros Hd.
  unfold FollowHierarchyLayout.get_test_file, package_path.
  rewrite startswith_append. cbn [negb].
  rewrite _relpath_under; auto.
  - cbn [bind]. rewrite break_down_package by now apply segments_no_sep.
    rewrite map_app. cbn [map].
    cbn [app]. rewrite app_comm_cons, glue_parts_module.
    unfold module_path. rewrite <- app_comm_cons.
    rewrite join_under; [reflexivity|]. now destruct (map _ dirs).
  - now destruct (dirs ++ [d])%list.
  - apply Forall_app. split; [assumption|]. now repeat constructor.
Qed.

(** *** Flat *)

Lemma flat_glue (name : string) :
  glue_parts ([tr] ++ [pre ++ name]) false
  = Return (module_path tr [] (pre ++ name)).
Proof. apply (glue_parts_module [tr]). Qed.

Lemma flat_test_file (dirs : list string) (m : string) :
  Forall (fun s => segment s = true) dirs ->
  contains "/"%char m = false -> m <> "__init__" ->
  FlatLayout.get_test_file os self (module_path sr dirs m)
  = Return (module_path tr [] (pre ++ join "_" (dirs ++ [m]))).
Proof.
  intros Hd Hm Hinit. unfold FlatLayout.get_test_file, module_path.
  rewrite startswith_append. cbn [negb].
  rewrite _relpath_under; auto using module_segments;
    [|now destruct dirs].
  cbn [bind].
  rewrite break_down_module by auto using segments_no_sep.
  apply flat_glue.
Qed.

Lemma flat_test_file_package (dirs : list string) (d : string) :
  Forall (fun s => segment s = true) (dirs ++ [d]) ->
  FlatLayout.get_test_file os self (package_path sr (dirs ++ [d]))
  = Return (module_path tr [] (pre ++ join "_" (dirs ++ [d]))).
Proof.
  intros Hd. unfold FlatLayout.get_test_file, package_path.
  rewrite startswith_append. cbn [negb].
  rewrite _relpath_under; auto.
  - cbn [bind]. rewrite break_down_package by now apply segments_no_sep.
    apply flat_glue.
  - now destruct (dirs ++ [d])%list.
  - apply Forall_app. split; [assumption|]. now repeat constructor.
Qed.

Lemma flat_candidates (dirs : list string) (m : string) :
  Forall (fun s => contains "/"%char s = false
                   /\ contains "_"%char s = false) (dirs ++ [m]) ->
  pre ++ join "_" (dirs ++ [m]) <> "__init__" ->
  FlatLayout.get_source_candidates os self
    (module_path tr [] (pre ++ join "_" (dirs ++ [m])))
  = Return [module_path sr dirs m; package_path sr (dirs ++ [m])].
Proof.
  intros Hparts Hinit. set (name := join "_" (dirs ++ [m])) in *.
  assert (Hname : contains "/"%char (pre ++ name) = false).
  { rewrite contains_append, prefix_no_sep. apply contains_join;
      [reflexivity|]. eapply Forall_impl; [|exact Hparts]. now intros s []. }
  unfold FlatLayout.get_source_candidates, module_path.
  rewrite startswith_append. cbn [negb].
  rewrite _relpath_under; auto;
    [|discriminate
     |constructor; [now apply module_file_segment | constructor]].
  cbn [bind]. rewrite break_down_module; auto. cbn [app length Nat.eqb negb nth].
  rewrite strip_prefix_append. unfold name.
  rewrite (split_join "_"%char);
    [|now destruct dirs
     |eapply Forall_impl; [|exact Hparts]; now intros s []].
  cbn [app]. rewrite app_comm_cons, glue_parts_module, glue_parts_package.
  cbn [bind]. unfold module_path, package_path.
  rewrite <- !app_comm_cons.
  rewrite !join_under; [reflexivity| |]; now destruct dirs.
Qed.

(** *** SideBySide *)

Lemma side_by_side_test_file (path : string) (front : list string)
      (m : string) :
  split "/"%char path = (front ++ [(m ++ ".py")%string])%list ->
  m <> "__init__" ->
  SideBySideLayout.get_test_file self path
  = Return (join "/" (front ++ [(pre ++ m) ++ ".py"])).
Proof.
  intros Hsplit Hinit. unfold SideBySideLayout.get_test_file.
  rewrite (break_down_split path front (m ++ ".py") Hsplit).
  destruct (String.eqb_spec (m ++ ".py") "__init__.py") as [E|_].
  { change "__init__.py" with ("__init__" ++ ".py") in E.
    apply append_inj_r in E. contradiction. }
  rewrite endswith_append.
  pose proof (drop_end_append m ".py") as D. simpl String.length in D.
  rewrite D. unfold last_part, set_last_part.
  destruct (front ++ [m])%list eqn:E; [now destruct front|].
  rewrite <- E. cbn [bind]. rewrite last_last, removelast_last.
  apply glue_parts_module.
Qed.

Lemma side_by_side_candidates (front : list string) (m : string) :
  Forall (fun s => contains "/"%char s = false) (front ++ [m]) ->
  pre ++ m <> "__init__" ->
  SideBySideLayout.get_source_candidates self
    (join "/" (front ++ [(pre ++ m) ++ ".py"]))
  = Return [join "/" (front ++ [m ++ ".py"])].
Proof.
  intros Hparts Hinit. apply Forall_app in Hparts as [Hfront Hm].
  inversion Hm as [|? ? Hm' _]; subst.
  unfold SideBySideLayout.get_source_candidates.
  rewrite break_down_module; auto;
    [|now rewrite contains_append, prefix_no_sep, Hm'].
  unfold last_part, set_last_part.
  destruct (front ++ [(pre ++ m)%string])%list eqn:E;
    [now destruct front|].
  rewrite <- E. cbn [bind]. rewrite last_last, removelast_last.
  rewrite startswith_append. cbn [negb]. rewrite drop_append.
  now rewrite glue_parts_module.
Qed.

Lemma side_by_side_round_trip (path m : string) :
  last (split "/"%char path) "" = m ++ ".py" ->
  m <> "__init__" -> pre ++ m <> "__init__" ->
  round_trips (SideBySideLayout.new self) path.
Proof.
  intros Hlast Hm Hpm.
  pose proof (split_nonnil "/"%char path) as Hne.
  pose proof (split_parts_no_sep "/"%char path) as Hsep.
  destruct (exists_last Hne) as (front & f & Hsplit).
  rewrite Hsplit, last_last in Hlast. subst f.
  rewrite Hsplit in Hsep. apply Forall_app in Hsep as [Hfront Hf].
  inversion Hf as [|? ? Hf' _]; subst.
  rewrite contains_append in Hf'. apply orb_false_iff in Hf' as [Hm' _].
  exists (join "/" (front ++ [(pre ++ m) ++ ".py"])),
         [join "/" (front ++ [m ++ ".py"])].
  split; [|split].
  - now apply side_by_side_test_file.
  - apply side_by_side_candidates; auto.
    apply Forall_app. split; [assumption|]. now repeat constructor.
  - left. rewrite <- Hsplit. apply (join_split "/"%char).
Qed.

End Layouts.
End RoundTrip.

(** ** The layouts: claims *)

Section LayoutClaims.
Import PyStrFacts PathFacts LayoutFacts RoundTrip Path.

Variable os : OS.
Variable self : BaseTestLayout.

Local Abbreviation sr := (source_root self).
Local Abbreviation tr := (test_root self).
Local Abbreviation pre := (prefix self).




(** C1, as the program has it.  Mapping a source file to its test file
    and back yields candidates that contain the source file
    - in the FollowHierarchy layout, for every module file
      [sourceRoot/d1/.../dn/m.py] and every package-init file
      [sourceRoot/d1/.../dn/__init__.py];
    - in the SideBySide layout, for every path whose last segment is a
      module file [m.py] other than the package-init file;
    - in the Flat layout, for those module and package-init files none
      of whose segments contains an underscore;
    given that the prefix has no separator and the prefixed name is not
    itself the package-init name. *)
Theorem round_trip_where_it_holds :
  has_relpath os = true ->
  posixpath.isabs (getcwd os) = true ->
  sr <> "" -> tr <> "" -> contains "/"%char pre = false ->
  (forall dirs m,
      Forall (fun s => segment s = true) dirs ->
      contains "/"%char m = false -> m <> "__init__" ->
      pre ++ m <> "__init__" ->
      round_trips (FollowHierarchyLayout.new os self)
                  (module_path sr dirs m))
  /\ (forall dirs d,
         Forall (fun s => segment s = true) (dirs ++ [d]) ->
         pre ++ d <> "__init__" ->
         round_trips (FollowHierarchyLayout.new os self)
                     (package_path sr (dirs ++ [d])))
  /\ (forall path m,
         last (split "/"%char path) "" = m ++ ".py" ->
         m <> "__init__" -> pre ++ m <> "__init__" ->
         round_trips (SideBySideLayout.new self) path)
  /\ (forall dirs m,
         Forall (fun s => segment s = true) dirs ->
         Forall (fun s => contains "_"%char s = false) (dirs ++ [m]) ->
         contains "/"%char m = false ->
         pre ++ join "_" (dirs ++ [m]) <> "__init__" ->
         round_trips (FlatLayout.new os self) (module_path sr dirs m))
  /\ (forall dirs d,
         Forall (fun s => segment s = true) (dirs ++ [d]) ->
         Forall (fun s => contains "_"%char s = false) (dirs ++ [d]) ->
         pre ++ join "_" (dirs ++ [d]) <> "__init__" ->
         round_trips (FlatLayout.new os self)
                     (package_path sr (dirs ++ [d]))).
Proof.
  intros Hrel Hcwd Hsr Htr Hpre.
  assert (Hflat : forall dirs m,
             Forall (fun s => contains "/"%char s = false) (dirs ++ [m]) ->
             Forall (fun s => contains "_"%char s = false) (dirs ++ [m]) ->
             Forall (fun s => contains "/"%char s = false
                              /\ contains "_"%char s = false) (dirs ++ [m])).
  { intros dirs m H1 H2. rewrite Forall_forall in *. auto. }
  split; [|split; [|split; [|split]]].
  - intros dirs m Hd Hm Hinit Hpinit.
    eexists _, _. split; [|split].
    + apply (follow_hierarchy_test_file os self); assumption.
    + apply (follow_hierarchy_candidates os self); assumption.
    + now left.
  - intros dirs d Hd Hpinit.
    pose proof Hd as Hd'. apply Forall_app in Hd' as [Hdirs Hlast].
    inversion Hlast as [|? ? Hseg _]; subst.
    apply segment_spec in Hseg as (_ & _ & _ & Hsep).
    eexists _, _. split; [|split].
    + apply (follow_hierarchy_test_file_package os self); assumption.
    + apply (follow_hierarchy_candidates os self); assumption.
    + right. now left.
  - intros path m. now apply side_by_side_round_trip.
  - intros dirs m Hd Hu Hm Hpinit.
    eexists _, _. split; [|split].
    + apply (flat_test_file os self); try assumption.
      intros ->. apply Forall_app in Hu as [_ Hu].
      inversion Hu; subst. discriminate.
    + apply (flat_candidates os self); try assumption.
      apply Hflat; [|assumption]. apply Forall_app. split.
      * now apply segments_no_sep.
      * now repeat constructor.
    + now left.
  - intros dirs d Hd Hu Hpinit.
    eexists _, _. split; [|split].
    + apply (flat_test_file_package os self); assumption.
    + apply (flat_candidates os self); try assumption.
      apply Hflat; [|assumption]. now apply segments_no_sep.
    + right. now left.
Qed.
End LayoutClaims.

(** C1, as stated, fails: in the SideBySide layout the package-init file
    [src/pkg/__init__.py] is mapped to [src/test_pkg.py], whose only
    candidate is [src/pkg.py]; in the Flat layout the module file
    [src/pkg_mod.py] is mapped to [tests/test_pkg_mod.py], whose candidates
    are [src/pkg/mod.py] and [src/pkg/mod/__init__.py].  Both source files
    exist and lie under the source root. *)
Lemma round_trip_counterexample :
  (isfile (Example.os "/proj" true) "src/pkg/__init__.py" = true
   /\ startswith "src/pkg/__init__.py" (source_root Example.layout) = true
   /\ ~ round_trips (SideBySideLayout.new Example.layout)
                    "src/pkg/__init__.py")
  /\ (isfile (Example.os "/proj" true) "src/pkg_mod.py" = true
      /\ startswith "src/pkg_mod.py" (source_root Example.layout) = true
      /\ ~ round_trips (FlatLayout.new (Example.os "/proj" true)
Example.layout)
"src/pkg_mod.py").
Proof.
  split; (split; [reflexivity | split; [reflexivity|]]);
    intros (t & cs & Ht & Hcs & Hin);
    vm_compute in Ht; injection Ht as <-;
    vm_compute in Hcs; injection Hcs as <-;
    simpl in Hin; intuition discriminate.
Qed.

Lemma round_trip_where_it_holds_witness :
  round_trips (FollowHierarchyLayout.new (Example.os "/proj" true)
Example.layout)
"src/pkg/mod.py"
/\ round_trips (SideBySideLayout.new Example.layout) "src/pkg/mod.py"
/\ round_trips (FlatLayout.new (Example.os "/proj" true) Example.layout)
"src/pkg/mod.py".
Proof.
  destruct (round_trip_where_it_holds (Example.os "/proj" true)
Example.layout eq_refl eq_refl
ltac:(discriminate) ltac:(discriminate) eq_refl)
as (Hfh & _ & Hsbs & Hflat & _).
split; [|split].
- apply (Hfh ["pkg"] "mod"); try reflexivity; try discriminate.
repeat constructor.
- apply (Hsbs "src/pkg/mod.py" "mod"); try reflexivity; discriminate.
- apply (Hflat ["pkg"] "mod"); try reflexivity; try discriminate;
repeat constructor.
Defined.



(** ** The package-init file alone *)

(** C10.  [break_down] of the bare package-init file name is the empty
    list, and [SideBySideLayout.is_test_file] and
    [SideBySideLayout.get_test_file] then index its last element: they
    raise [IndexError]. *)
Theorem side_by_side_bare_init_unguarded (self : BaseTestLayout) :
  break_down "__init__.py" = []
  /\ SideBySideLayout.is_test_file self "__init__.py" = Raise IndexError
  /\ SideBySideLayout.get_test_file self "__init__.py" = Raise IndexError.
Proof. repeat split. Qed.

(** ** The flat layout's depth check *)

Section FlatDepth.
Import PyStrFacts PathFacts LayoutFacts RoundTrip Path.

Variable os : OS.
Variable self : BaseTestLayout.

(** C6, as the program has it.  For a test file that starts with the
    test root and whose path relative to it is [rel],
    [FlatLayout.get_source_candidates] raises [InvalidTestPath] whenever
    [break_down rel] (the segments of [rel], a final package-init file
    dropped) does not have exactly one part, and otherwise returns
    exactly two candidates: the plain-module and the package-init
    interpretation of the underscore-split name under the source
    root. *)
Theorem flat_candidates_by_parts (test_file rel : string) :
  startswith test_file (test_root self) = true ->
  _relpath os test_file (test_root self) true = Return rel ->
  (List.length (break_down rel) <> 1%nat ->
   FlatLayout.get_source_candidates os self test_file
   = Raise InvalidTestPath)
  /\ (forall name,
         break_down rel = [name] ->
         let parts := split "_"%char (strip_prefix name (prefix self)) in
         FlatLayout.get_source_candidates os self test_file
         = Return
             [join "/" (source_root self
                          :: removelast parts
                          ++ [(last parts "" ++ ".py")%string]);
              join "/" (source_root self :: parts ++ ["__init__.py"])]).
Proof.
  intros Hstart Hrel. unfold FlatLayout.get_source_candidates.
  rewrite Hstart, Hrel. cbn [negb bind]. split.
  - intros Hlen. apply Nat.eqb_neq in Hlen. now rewrite Hlen.
  - intros name Hname. rewrite Hname. cbn [length Nat.eqb negb nth app].
    pose proof (split_nonnil "_"%char
                  (strip_prefix name (prefix self))) as Hne.
    destruct (exists_last Hne) as (front & l & Hparts).
    rewrite Hparts, app_comm_cons, glue_parts_module, glue_parts_package.
    cbn [bind]. now rewrite removelast_last, last_last.
Qed.
End FlatDepth.

(** C6, as stated, fails both ways: [tests/test_foo/__init__.py] is two
    levels below the test root and has candidates, and [tests/__init__.py]
    is one level below it and is rejected. *)
Lemma flat_depth_counterexample :
  _relpath (Example.os "/proj" true) "tests/test_foo/__init__.py"
           (test_root Example.layout) true
  = Return "test_foo/__init__.py"
  /\ List.length (split "/"%char "test_foo/__init__.py") = 2%nat
  /\ FlatLayout.get_source_candidates (Example.os "/proj" true)
Example.layout "tests/test_foo/__init__.py"
= Return ["src/foo.py"; "src/foo/__init__.py"]
/\ _relpath (Example.os "/proj" true) "tests/__init__.py"
       (test_root Example.layout) true
= Return "__init__.py"
/\ List.length (split "/"%char "__init__.py") = 1%nat
/\ FlatLayout.get_source_candidates (Example.os "/proj" true)
Example.layout "tests/__init__.py"
= Raise InvalidTestPath.
Proof. repeat split. Qed.

Lemma flat_candidates_by_parts_witness :
  FlatLayout.get_source_candidates (Example.os "/proj" true)
Example.layout "tests/a/test_pkg_mod.py"
= Raise InvalidTestPath
/\ FlatLayout.get_source_candidates (Example.os "/proj" true)
Example.layout "tests/test_pkg_mod.py"
= Return ["src/pkg/mod.py"; "src/pkg/mod/__init__.py"].
Proof.
  split.
  - apply (proj1 (flat_candidates_by_parts (Example.os "/proj" true)
Example.layout "tests/a/test_pkg_mod.py"
"a/test_pkg_mod.py" eq_refl eq_refl)).
vm_compute. discriminate.
- exact (proj2 (flat_candidates_by_parts (Example.os "/proj" true)
Example.layout "tests/test_pkg_mod.py"
"test_pkg_mod.py" eq_refl eq_refl)
"test_pkg_mod" eq_refl).
Defined.

(** ** Finding the project root *)

Section ProjectRoot.
Variable os : OS.
Variable vim : Vim.

Lemma ancestor_succ (k : nat) (path : string) :
  ancestor (S k) path
  = ancestor k (posixpath.join2 path posixpath.pardir).
Proof.
  unfold ancestor. induction k as [|k IH]; [reflexivity|].
  simpl in *. now rewrite IH.
Qed.

Lemma is_fs_root_spec (path : string) :
  is_fs_root os vim path = true
  <-> realpath os path = "/"
      \/ (ProjRootStopAtHomeDir vim <> 0%Z
          /\ realpath os path = HOME os).
Proof.
  unfold is_fs_root, is_home_dir.
  rewrite orb_true_iff, andb_true_iff, negb_true_iff, Z.eqb_neq,
    !String.eqb_eq. reflexivity.
Qed.

(** The loop, as long as it neither stops nor finds an indicator. *)
Lemma find_project_root_loop_climbs (n fuel : nat) (path : string) :
  (forall k, (k < n)%nat ->
             is_fs_root os vim (ancestor k path) = false
             /\ has_indicator os vim (ancestor k path) = false) ->
  find_project_root_loop os vim (n + fuel) path
  = find_project_root_loop os vim fuel (ancestor n path).
Proof.
  revert path. induction n as [|n IH]; intros path Hclimb.
  - reflexivity.
  - destruct (Hclimb 0%nat ltac:(lia)) as [Hroot Hind].
    change (ancestor 0 path) with path in Hroot, Hind.
    cbn [Nat.add find_project_root_loop]. rewrite Hroot, Hind. cbn [negb].
    rewrite IH, <- ancestor_succ; [reflexivity|].
    intros k Hk. rewrite <- ancestor_succ. apply Hclimb. lia.
Qed.

Lemma find_project_root_loop_stops (n fuel : nat) (path : string) :
  (forall k, (k < n)%nat ->
             is_fs_root os vim (ancestor k path) = false
             /\ has_indicator os vim (ancestor k path) = false) ->
  is_fs_root os vim (ancestor n path) = true ->
  (n < fuel)%nat ->
  find_project_root_loop os vim fuel path = Raise ProjectRootNotFound.
Proof.
  intros Hclimb Hstop Hfuel.
  replace fuel with (n + S (fuel - S n))%nat by lia.
  rewrite find_project_root_loop_climbs by assumption.
  cbn [find_project_root_loop]. now rewrite Hstop.
Qed.

(** C8.  Started at a directory, [find_project_root] climbs from
    [path] by [/..]; if it reaches the file system root (or, with
    [g:ProjRootStopAtHomeDir] set, the home directory) before any
    directory on the way contains an indicator, it raises
    [ProjectRootNotFound]; if a directory on the way contains an
    indicator, the first such directory is returned, normalised.
    Started at a path that is no directory, it starts over at the
    directory of the resolved path. *)
Theorem find_project_root_climbs (path : string) (n fuel : nat) :
  isdir os path = true ->
  (forall k, (k < n)%nat ->
             is_fs_root os vim (ancestor k path) = false
             /\ has_indicator os vim (ancestor k path) = false) ->
  (n + 2 <= fuel)%nat ->
  (is_fs_root os vim (ancestor n path) = true ->
   find_project_root os vim fuel path = Raise ProjectRootNotFound)
  /\ (is_fs_root os vim (ancestor n path) = false ->
      has_indicator os vim (ancestor n path) = true ->
      find_project_root os vim fuel path
      = Return (posixpath.normpath (ancestor n path)))
  /\ (forall p,
         is_fs_root os vim p = true
         <-> realpath os p = "/"
             \/ (ProjRootStopAtHomeDir vim <> 0%Z
                 /\ realpath os p = HOME os))
  /\ (forall file,
         isdir os file = false ->
         find_project_root os vim (S fuel) file
         = find_project_root os vim fuel
             (posixpath.dirname (realpath os file))).
Proof.
  intros Hdir Hclimb Hfuel.
  destruct fuel as [|fuel]; [lia|].
  split; [|split; [|split]].
  - intros Hstop. cbn [find_project_root]. rewrite Hdir. cbn [negb].
    apply (find_project_root_loop_stops n); auto. lia.
  - intros Hroot Hind. cbn [find_project_root]. rewrite Hdir. cbn [negb].
    replace fuel with (n + S (fuel - S n))%nat by lia.
    rewrite find_project_root_loop_climbs by assumption.
    cbn [find_project_root_loop]. now rewrite Hroot, Hind.
  - apply is_fs_root_spec.
  - intros file Hfile. cbn [find_project_root]. now rewrite Hfile.
Qed.

(** C9.  The loop tests whether it has reached a stop boundary before
    it looks for indicators, so an indicator in the boundary directory
    itself (the file system root, or the home directory with
    [g:ProjRootStopAtHomeDir] set) is not seen: when no directory
    below the boundary has an indicator, the search raises
    [ProjectRootNotFound] although the boundary directory has one. *)
Theorem indicator_at_boundary_not_seen (path : string) (n fuel : nat) :
  isdir os path = true ->
  (forall k, (k < n)%nat ->
             is_fs_root os vim (ancestor k path) = false
             /\ has_indicator os vim (ancestor k path) = false) ->
  (realpath os (ancestor n path) = "/"
   \/ (ProjRootStopAtHomeDir vim <> 0%Z
       /\ realpath os (ancestor n path) = HOME os)) ->
  has_indicator os vim (ancestor n path) = true ->
  (n + 2 <= fuel)%nat ->
  find_project_root os vim fuel path = Raise ProjectRootNotFound.
Proof.
  intros Hdir Hclimb Hboundary _ Hfuel.
  destruct fuel as [|fuel]; [lia|].
  cbn [find_project_root]. rewrite Hdir. cbn [negb].
  apply (find_project_root_loop_stops n); auto; [|lia].
  now apply is_fs_root_spec.
Qed.
End ProjectRoot.

Ltac below_boundary :=
  let k := fresh "k" in
  let Hk := fresh "Hk" in
  intros k Hk;
  repeat (destruct k as [|k]; [split; reflexivity|]); lia.

Lemma find_project_root_climbs_witness :
  find_project_root (Example.os "/proj" true) (Example.vim "flat" [".git"])
    5 "/proj/src/pkg"
  = Return "/proj"
  /\ find_project_root (Example.os "/proj" true)
       (Example.vim "flat" ["setup.py"]) 5 "/proj/src/pkg"
     = Raise ProjectRootNotFound.
Proof.
  split.
  - assert (H : forall k, (k < 2)%nat ->
                is_fs_root (Example.os "/proj" true)
                  (Example.vim "flat" [".git"])
                  (ancestor k "/proj/src/pkg") = false
                /\ has_indicator (Example.os "/proj" true)
                     (Example.vim "flat" [".git"])
                     (ancestor k "/proj/src/pkg") = false)
      by below_boundary.
    exact (proj1 (proj2 (find_project_root_climbs (Example.os "/proj" true)
                           (Example.vim "flat" [".git"]) "/proj/src/pkg" 2 5
                           eq_refl H ltac:(lia)))
                 eq_refl eq_refl).
  - assert (H : forall k, (k < 3)%nat ->
                is_fs_root (Example.os "/proj" true)
                  (Example.vim "flat" ["setup.py"])
                  (ancestor k "/proj/src/pkg") = false
                /\ has_indicator (Example.os "/proj" true)
                     (Example.vim "flat" ["setup.py"])
                     (ancestor k "/proj/src/pkg") = false)
      by below_boundary.
    exact (proj1 (find_project_root_climbs (Example.os "/proj" true)
                    (Example.vim "flat" ["setup.py"]) "/proj/src/pkg" 3 5
                    eq_refl H ltac:(lia))
                 eq_refl).
Defined.

Lemma indicator_at_boundary_not_seen_witness :
  has_indicator (Example.os "/proj" true) (Example.vim "flat" ["etc"])
    (ancestor 2 "/proj/src") = true
  /\ find_project_root (Example.os "/proj" true) (Example.vim "flat" ["etc"])
       4 "/proj/src"
     = Raise ProjectRootNotFound
  /\ has_indicator (Example.os "/proj" true)
       (Example.vim "flat" [".project"]) (ancestor 1 "/home/u/work") = true
  /\ find_project_root (Example.os "/proj" true)
       (Example.vim "flat" [".project"]) 3 "/home/u/work"
     = Raise ProjectRootNotFound.
Proof.
  split; [reflexivity|]. split; [|split; [reflexivity|]].
  - apply (indicator_at_boundary_not_seen (Example.os "/proj" true)
             (Example.vim "flat" ["etc"]) "/proj/src" 2 4);
      [reflexivity | below_boundary | left; reflexivity | reflexivity | lia].
  - apply (indicator_at_boundary_not_seen (Example.os "/proj" true)
             (Example.vim "flat" [".project"]) "/home/u/work" 1 3);
      [reflexivity | below_boundary
      | right; split; [discriminate | reflexivity] | reflexivity | lia].
Defined.

(** ** Classifying a path as a test file *)

Section Classification.
Variable os : OS.
Variable vim : Vim.

Lemma find_project_root_loop_with_structure (structure : string)
      (fuel : nat) (path : string) :
  find_project_root_loop os (with_structure vim structure) fuel path
  = find_project_root_loop os vim fuel path.
Proof.
  revert path. induction fuel as [|fuel IH]; intros path;
    [reflexivity|].
  cbn [find_project_root_loop]. rewrite IH. reflexivity.
Qed.

Lemma find_project_root_with_structure (structure : string)
      (fuel : nat) (path : string) :
  find_project_root os (with_structure vim structure) fuel path
  = find_project_root os vim fuel path.
Proof.
  revert path. induction fuel as [|fuel IH]; intros path;
    [reflexivity|].
  cbn [find_project_root].
  now rewrite IH, find_project_root_loop_with_structure.
Qed.

(** The layout that is configured makes no difference to
    [is_test_file]. *)
Lemma is_test_file_independent_of_layout (structure : string)
      (fuel : nat) (path : string) :
  is_test_file os (with_structure vim structure) fuel path
  = is_test_file os vim fuel path.
Proof.
  unfold is_test_file, get_tests_root.
  rewrite find_project_root_with_structure. reflexivity.
Qed.
End Classification.

(** C3.  [is_test_file] means to tell whether the path is in the test
    root (its comment: being in the test root means you are a test file), but it
    tests [path.startswith(testroot)] on the absolute paths as strings,
    without a separator after the test root: [/proj/tests_extra/x.py] is
    classified as a test file of the test root [/proj/tests], although it
    does not lie under it ([_relpath] places it at [../tests_extra/x.py]),
    and this whatever layout is configured. *)
Theorem is_test_file_accepts_a_sibling_of_the_tests_root :
  get_tests_root (Example.os "/proj" true) (Example.vim "flat" [".git"]) 5
    "/proj/tests_extra/x.py" = Return "/proj/tests"
  /\ is_test_file (Example.os "/proj" true) (Example.vim "flat" [".git"]) 5
       "/proj/tests_extra/x.py" = Return true
  /\ ~ Path.lies_under
         (posixpath.abspath "/proj" "/proj/tests_extra/x.py")
         (posixpath.abspath "/proj" "/proj/tests")
  /\ _relpath (Example.os "/proj" true) "/proj/tests_extra/x.py"
              "/proj/tests" true
     = Return "../tests_extra/x.py"
  /\ (forall structure,
         is_test_file (Example.os "/proj" true)
           (Example.vim structure [".git"]) 5 "/proj/tests_extra/x.py"
         = Return true).
Proof.
  split; [reflexivity|]. split; [reflexivity|]. split; [|split].
  - intros [rest H]. vm_compute in H. discriminate.
  - reflexivity.
  - intros structure. reflexivity.
Qed.

(** ** [_relpath] *)

Module RelpathOwn.
Import PyStrFacts.

Lemma length_take (n : nat) (s : string) :
  (String.length (take n s) <= String.length s)%nat.
Proof.
  revert s. induction n as [|n IH]; intros [|a s]; simpl; try lia.
  specialize (IH s). lia.
Qed.

Lemma take_full (n : nat) (s : string) :
  String.length (take n s) = String.length s -> take n s = s.
Proof.
  revert s. induction n as [|n IH]; intros [|a s]; simpl;
    try reflexivity; try discriminate.
  intros [= H]. now rewrite IH.
Qed.

Lemma length_rstrip (c : ascii) (s : string) :
  (String.length (rstrip c s) <= String.length s)%nat.
Proof.
  induction s as [|a s IH]; simpl; [lia|].
  destruct (rstrip c s); [destruct (Ascii.eqb a c)|]; simpl in *; lia.
Qed.

Lemma rstrip_full (c : ascii) (s : string) :
  String.length (rstrip c s) = String.length s -> rstrip c s = s.
Proof.
  induction s as [|a s IH]; simpl; [reflexivity|].
  pose proof (length_rstrip c s) as Hle.
  destruct (rstrip c s) as [|b r] eqn:E.
  - destruct (Ascii.eqb a c); simpl in *; intros H.
    + lia.
    + assert (String.length s = 0%nat) by lia.
      destruct s; [reflexivity | discriminate].
  - simpl. intros [= H]. now rewrite IH.
Qed.

Lemma length_dirname (p : string) :
  (String.length (posixpath.dirname p) <= String.length p)%nat.
Proof.
  unfold posixpath.dirname.
  set (head := take _ p).
  pose proof (length_take (Z.to_nat (rfind posixpath.sep_char p + 1)) p).
  pose proof (length_rstrip posixpath.sep_char head).
  fold head in H. destruct (_ && _); lia.
Qed.

Lemma dirname_full (p : string) :
  String.length (posixpath.dirname p) = String.length p ->
  posixpath.dirname p = p.
Proof.
  unfold posixpath.dirname.
  set (head := take _ p).
  pose proof (length_take (Z.to_nat (rfind posixpath.sep_char p + 1)) p)
    as Ht.
  pose proof (length_rstrip posixpath.sep_char head) as Hr.
  fold head in Ht. destruct (_ && _); intros H.
  - assert (Hh : head = p) by (apply take_full; fold head; lia).
    rewrite Hh in *. now apply rstrip_full.
  - now apply take_full.
Qed.

(** Once [dirname] no longer changes [fulls], the loop cannot end. *)
Lemma strip_dirs_stuck (fullp fulls : string) :
  posixpath.dirname fulls = fulls -> startswith fullp fulls = false ->
  forall fuel path_prefixes,
    strip_dirs fuel fullp fulls path_prefixes = None.
Proof.
  intros Hfix Hno. induction fuel as [|fuel IH]; intros pp;
    [reflexivity|].
  cbn [strip_dirs]. rewrite Hfix, Hno. apply IH.
Qed.

(** The fuel [_relpath_own] gives the loop is enough: if the loop has
    not ended by then, it never ends. *)
Lemma strip_dirs_fuel_adequate (fullp : string) (fuel : nat) :
  forall fulls path_prefixes,
    (String.length fulls < fuel)%nat ->
    strip_dirs fuel fullp fulls path_prefixes = None ->
    forall fuel' path_prefixes',
      strip_dirs fuel' fullp fulls path_prefixes' = None.
Proof.
  induction fuel as [|fuel IH]; intros fulls pp Hlen Hnone; [lia|].
  cbn [strip_dirs] in Hnone.
  destruct (startswith fullp (posixpath.dirname fulls)) eqn:Hsw;
    [discriminate|].
  pose proof (length_dirname fulls) as Hle.
  destruct (Nat.eq_dec (String.length (posixpath.dirname fulls))
                       (String.length fulls)) as [Heq|Hne].
  - apply dirname_full in Heq. rewrite Heq in Hsw.
    now apply strip_dirs_stuck.
  - intros [|fuel'] pp'; [reflexivity|].
    cbn [strip_dirs]. rewrite Hsw.
    eapply IH; [|exact Hnone]. lia.
Qed.

(** The program's own implementation maps equal paths to [.]. *)
Lemma _relpath_own_same (os : OS) (x : string) :
  _relpath_own os x x = Return ".".
Proof. unfold _relpath_own. now rewrite String.eqb_refl. Qed.

End RelpathOwn.

(** C7.  With [os.path.relpath] missing (Python before 2.6), [_relpath]
    falls back onto its own implementation, which matches [fullp] against
    the normalised but not absolute [start]: for the relative base [src]
    and the child [child] it returns [../src/child], where
    [os.path.relpath] returns [child]; and for the start [//b] it does not
    terminate. *)
Theorem relpath_own_relative_start :
  _relpath (Example.os "/proj" false) (posixpath.join2 "src" "child")
           "src" true
  = Return "../src/child"
  /\ _relpath (Example.os "/proj" true) (posixpath.join2 "src" "child")
              "src" true
     = Return "child"
  /\ (forall fuel path_prefixes,
         strip_dirs fuel (posixpath.abspath "/proj" "/a")
                    (posixpath.abspath "/proj" "//b") path_prefixes
         = None)
  /\ _relpath (Example.os "/proj" false) "/a" "//b" true = OutOfFuel.
Proof.
  split; [reflexivity|]. split; [reflexivity|]. split; [|reflexivity].
  intros fuel pp.
  apply (RelpathOwn.strip_dirs_fuel_adequate _ 4 _ []);
    [vm_compute; lia | reflexivity].
Qed.

(** ** The flat layout's search for the source file of a test file *)

Section SlashGenerator.
Variables select_from select_last_from : list string.

Lemma slashgenerator_length (n : nat) :
  List.length (slashgenerator n select_from select_last_from)
  = (List.length select_from ^ n * List.length select_last_from)%nat.
Proof.
  induction n as [|n IH]; simpl.
  - rewrite length_map. lia.
  - set (g := slashgenerator n select_from select_last_from) in *.
    assert (H : forall l : list string,
               List.length (flat_map (fun opt => map (fun x => opt :: x) g) l)
               = (List.length l * List.length g)%nat).
    { induction l as [|a l IHl]; simpl; [reflexivity|].
      rewrite length_app, length_map, IHl. reflexivity. }
    rewrite H, IH. lia.
Qed.

Lemma slashgenerator_In (n : nat) (x : list string) :
  In x (slashgenerator n select_from select_last_from)
  <-> exists seps lst,
      x = (seps ++ [lst])%list /\ List.length seps = n
      /\ Forall (fun s => In s select_from) seps
      /\ In lst select_last_from.
Proof.
  revert x. induction n as [|n IH]; intros x; simpl.
  - rewrite in_map_iff. split.
    + intros (lst & <- & Hl). exists [], lst. auto.
    + intros (seps & lst & -> & Hlen & _ & Hl).
      destruct seps; [|discriminate]. exists lst. auto.
  - rewrite in_flat_map. split.
    + intros (opt & Hopt & Hx). apply in_map_iff in Hx.
      destruct Hx as (y & <- & Hy). apply IH in Hy.
      destruct Hy as (seps & lst & -> & Hlen & Hall & Hl).
      exists (opt :: seps), lst. simpl. repeat split; auto.
    + intros (seps & lst & -> & Hlen & Hall & Hl).
      destruct seps as [|opt seps]; [discriminate|].
      inversion Hall; subst. exists opt. split; [assumption|].
      apply in_map_iff. exists (seps ++ [lst])%list. split; [reflexivity|].
      apply IH. exists seps, lst. simpl in Hlen. repeat split; auto.
Qed.
End SlashGenerator.

Lemma slashgenerator_hd (n : nat) (a b c d : string) :
  hd [] (slashgenerator n [a; b] [c; d]) = (repeat a n ++ [c])%list.
Proof.
  induction n as [|n IH]; simpl; [reflexivity|].
  destruct (slashgenerator n [a; b] [c; d]) as [|y l]; simpl in *.
  - destruct n; discriminate.
  - now rewrite IH.
Qed.

Section ProjectRootFacts.
Variable os : OS.
Variable vim : Vim.

Lemma find_project_root_loop_nonempty (fuel : nat) (path root : string) :
  find_project_root_loop os vim fuel path = Return root -> root <> "".
Proof.
  revert path. induction fuel as [|fuel IH]; intros path; simpl.
  - discriminate.
  - destruct (is_fs_root os vim path); simpl; [discriminate|].
    destruct (has_indicator os vim path).
    + intros [= <-]. apply normpath_nonempty.
    + apply IH.
Qed.

Lemma find_project_root_nonempty (fuel : nat) (path root : string) :
  find_project_root os vim fuel path = Return root -> root <> "".
Proof.
  revert path. induction fuel as [|fuel IH]; intros path; simpl.
  - discriminate.
  - destruct (isdir os path); simpl.
    + apply find_project_root_loop_nonempty.
    + apply IH.
Qed.

Lemma find_source_root_nonempty (fuel : nat) (path src_root : string) :
  find_source_root os vim fuel path = Return src_root -> src_root <> "".
Proof.
  unfold find_source_root.
  destruct (find_project_root os vim fuel path) as [root| |] eqn:E;
    simpl; try discriminate.
  intros [= <-]. apply join2_nonempty.
  eapply find_project_root_nonempty; eassumption.
Qed.
End ProjectRootFacts.

Lemma find_first {A : Type} (f : A -> bool) (pre post : list A) (g : A) :
  Forall (fun x => f x = false) pre -> f g = true ->
  find f (pre ++ g :: post) = Some g.
Proof.
  induction 1 as [|x pre Hx _ IH]; intros Hg; simpl.
  - now rewrite Hg.
  - rewrite Hx. auto.
Qed.

Lemma find_none_all {A : Type} (f : A -> bool) (l : list A) :
  Forall (fun x => f x = false) l -> find f l = None.
Proof. induction 1 as [|x l Hx _ IH]; simpl; [|rewrite Hx]; auto. Qed.

(** C2.  In the flat layout, [find_source_file_for_test_file] splits the
    stripped stem of the test-root-relative name into [n] parts and
    guesses exactly the paths that put a path separator or an underscore
    between consecutive parts ([2^(n-1)] combinations) and end in the bare
    extension or in the package-init form; the guesses come in one fixed
    order, starting with all separators and the bare extension; the first
    guess that is a file is returned, and [SourceFileNotFound] is raised
    when none is.  For [test_pkg_mod.py] the guesses under [src] are
    [src/pkg/mod.py], [src/pkg/mod/__init__.py], [src/pkg_mod.py] and
    [src/pkg_mod/__init__.py]. *)
Theorem flat_find_source_file_enumerates
  (os : OS) (vim : Vim) (fuel : nat)
  (path testsroot rel_path src_root : string) :
  PyUnitTestsStructure vim = "flat" ->
  get_tests_root os vim fuel path = Return testsroot ->
  _relpath os path testsroot true = Return rel_path ->
  find_source_root os vim fuel path = Return src_root ->
  let sourcefile :=
    join "/" (map (fun p => strip_prefix p (PyUnitTestPrefix vim))
                  (split "/"%char rel_path)) in
  let stripped := fst (posixpath.splitext sourcefile) in
  let extension := snd (posixpath.splitext sourcefile) in
  let parts := split "_"%char stripped in
  let n := List.length parts in
  let candidate (seps : list string) (lst : string) :=
    posixpath.join2 src_root (join "" (interlace parts (seps ++ [lst]))) in
  let guesses := flat_guesses src_root sourcefile in
  (forall g, In g guesses <->
     exists seps lst,
       g = candidate seps lst /\ List.length seps = (n - 1)%nat
       /\ Forall (fun s => s = "/" \/ s = "_") seps
       /\ (lst = extension \/ lst = "/__init__" ++ extension))
  /\ List.length guesses = (2 ^ (n - 1) * 2)%nat
  /\ hd "" guesses = candidate (repeat "/" (n - 1)) extension
  /\ (forall pre g post,
        guesses = (pre ++ g :: post)%list ->
        Forall (fun x => isfile os x = false) pre ->
        isfile os g = true ->
        find_source_file_for_test_file os vim fuel path = Return g)
  /\ (Forall (fun x => isfile os x = false) guesses ->
      find_source_file_for_test_file os vim fuel path
      = Raise SourceFileNotFound)
  /\ flat_guesses "src" "pkg_mod.py"
     = ["src/pkg/mod.py"; "src/pkg/mod/__init__.py";
        "src/pkg_mod.py"; "src/pkg_mod/__init__.py"].
Proof.
  intros Hflat Htr Hrel Hsr sourcefile stripped extension parts n
         candidate guesses.
  assert (Hg : guesses
               = map (fun slashes => candidate (removelast slashes)
                                               (last slashes ""))
                     (slashgenerator (n - 1) ["/"; "_"]
                        [extension; "/__init__" ++ extension])).
  { unfold guesses, flat_guesses, candidate.
    fold sourcefile. destruct (posixpath.splitext sourcefile) as [st ex] eqn:E.
    subst stripped extension parts n. simpl fst; simpl snd.
    apply map_ext_in. intros sl Hsl. apply slashgenerator_In in Hsl.
    destruct Hsl as (seps & lst & -> & _).
    now rewrite removelast_last, last_last. }
  assert (Hrun : find_source_file_for_test_file os vim fuel path
                 = match find (isfile os) guesses with
                   | Some guess => if String.eqb guess "" then Raise SourceFileNotFound
                                   else Return guess
                   | None => Raise SourceFileNotFound
                   end).
  { unfold find_source_file_for_test_file.
    rewrite Htr; simpl. rewrite Hrel; simpl. rewrite Hsr; simpl.
    rewrite Hflat; simpl. reflexivity. }
  split; [|split; [|split; [|split; [|split]]]].
  - intros g. rewrite Hg, in_map_iff. split.
    + intros (sl & <- & Hsl). apply slashgenerator_In in Hsl.
      destruct Hsl as (seps & lst & -> & Hlen & Hall & Hl).
      exists seps, lst. rewrite removelast_last, last_last.
      repeat split; auto.
      * eapply Forall_impl; [|exact Hall]. simpl. intuition.
      * simpl in Hl. intuition.
    + intros (seps & lst & -> & Hlen & Hall & Hl).
      exists (seps ++ [lst])%list. rewrite removelast_last, last_last.
      split; [reflexivity|]. apply slashgenerator_In.
      exists seps, lst. repeat split; auto.
      * eapply Forall_impl; [|exact Hall]. simpl. intuition.
      * simpl. intuition.
  - rewrite Hg, length_map, slashgenerator_length. reflexivity.
  - rewrite Hg.
    pose proof (slashgenerator_hd (n - 1) "/" "_" extension
                  ("/__init__" ++ extension)) as Hhd.
    destruct (slashgenerator (n - 1) ["/"; "_"]
                [extension; "/__init__" ++ extension]) as [|y l]; simpl in *.
    + destruct (repeat "/" (n - 1)); discriminate.
    + rewrite Hhd. now rewrite removelast_last, last_last.
  - intros pre g post Hsplit Hpre Hfile. rewrite Hrun, Hsplit.
    rewrite (find_first _ _ _ _ Hpre Hfile).
    assert (Hne : g <> "").
    { assert (In g guesses) as Hin by (rewrite Hsplit; apply in_elt).
      rewrite Hg in Hin. apply in_map_iff in Hin.
      destruct Hin as (sl & <- & _). apply join2_nonempty.
      eapply find_source_root_nonempty; eassumption. }
    apply String.eqb_neq in Hne. now rewrite Hne.
  - intros Hnone. rewrite Hrun. now rewrite (find_none_all _ _ Hnone).
  - reflexivity.
Qed.

(** ** The theorems at work on the example project *)

Lemma flat_find_source_file_enumerates_witness :
  find_source_file_for_test_file (Example.os "/proj" true)
    (Example.vim "flat" [".git"]) 5 "/proj/tests/test_pkg_mod.py"
  = Return "/proj/src/pkg/mod.py"
  /\ find_source_file_for_test_file (Example.os "/" true)
       (Example.vim "flat" [".git"]) 5 "/proj/tests/test_pkg_mod.py"
     = Return "/proj/src/pkg/mod.py".
Proof.
  split.
  - destruct (flat_find_source_file_enumerates (Example.os "/proj" true)
                (Example.vim "flat" [".git"]) 5
                "/proj/tests/test_pkg_mod.py" "/proj/tests"
                "test_pkg_mod.py" "/proj/src"
                eq_refl eq_refl eq_refl eq_refl)
      as (_ & _ & _ & Hfirst & _).
    apply (Hfirst [] "/proj/src/pkg/mod.py"
             ["/proj/src/pkg/mod/__init__.py"; "/proj/src/pkg_mod.py";
              "/proj/src/pkg_mod/__init__.py"]);
      [reflexivity | constructor | reflexivity].
  - destruct (flat_find_source_file_enumerates (Example.os "/" true)
                (Example.vim "flat" [".git"]) 5
                "/proj/tests/test_pkg_mod.py" "/proj/tests"
                "test_pkg_mod.py" "/proj/src"
                eq_refl eq_refl eq_refl eq_refl)
      as (_ & _ & _ & Hfirst & _).
    apply (Hfirst [] "/proj/src/pkg/mod.py"
             ["/proj/src/pkg/mod/__init__.py"; "/proj/src/pkg_mod.py";
              "/proj/src/pkg_mod/__init__.py"]);
      [reflexivity | constructor | reflexivity].
Defined.


(* ================================================================== *)
(** * Further properties of the program *)

(** ** The helpers: [strip_prefix], [break_down], [glue_parts] *)

Module HelperFacts.
Import PyStrFacts PathFacts LayoutFacts Path.

Lemma startswith_split (s p : string) :
  startswith s p = true -> p ++ drop (String.length p) s = s.
Proof.
  revert s. induction p as [|a p IH]; intros s H.
  - now destruct s.
  - destruct s as [|b s]; [discriminate|].
    rewrite startswith_cons in H. apply andb_prop in H as [Hab Hs].
    apply Ascii.eqb_eq in Hab. subst b. simpl. now rewrite IH.
Qed.

Lemma endswith_split (s suf : string) :
  endswith s suf = true -> drop_end (String.length suf) s ++ suf = s.
Proof.
  unfold endswith, drop_end. intros H. apply andb_prop in H as [_ H].
  apply String.eqb_eq in H.
  rewrite <- H at 2. apply take_drop.
Qed.

Lemma break_down_no_sep (path : string) :
  Forall (fun s => contains "/"%char s = false) (break_down path).
Proof.
  pose proof (split_nonnil "/"%char path) as Hne.
  pose proof (split_parts_no_sep "/"%char path) as Hsep.
  destruct (exists_last Hne) as (front & f & Hsplit).
  rewrite (break_down_split path front f Hsplit).
  rewrite Hsplit in Hsep. apply Forall_app in Hsep as [Hfront Hf].
  inversion Hf as [|? ? Hf' _]; subst.
  destruct (String.eqb f "__init__.py"); [assumption|].
  destruct (endswith f ".py") eqn:E.
  - apply Forall_app. split; [assumption|]. constructor; [|constructor].
    apply endswith_split in E. simpl String.length in E.
    rewrite <- E, contains_append in Hf'.
    now apply orb_false_iff in Hf' as [-> _].
  - apply Forall_app. split; [assumption|]. now repeat constructor.
Qed.

End HelperFacts.

Section Helpers.
Import PyStrFacts PathFacts LayoutFacts HelperFacts Path.

(** X1.  [strip_prefix s p] removes the prefix [p] from [s] when [s]
    starts with it and leaves [s] alone otherwise; in particular it undoes
    prefixing, once. *)
Theorem strip_prefix_removes_the_prefix (s p : string) :
  (if startswith s p then p ++ strip_prefix s p = s
   else strip_prefix s p = s)
  /\ strip_prefix (p ++ s) p = s
  /\ strip_prefix (p ++ p ++ s) p = p ++ s.
Proof.
  split; [|split; apply strip_prefix_append].
  unfold strip_prefix. destruct (startswith s p) eqn:E.
  - destruct (String.eqb_spec p "") as [->|_]; [reflexivity|].
    now apply startswith_split.
  - now rewrite andb_false_r.
Qed.

(** X2.  On a path whose last segment is a Python file, [glue_parts]
    undoes [break_down]: with [use_under_under_init] for a package-init
    file, without it for a module file. *)
Theorem glue_parts_undoes_break_down (path : string) :
  endswith (last (split "/"%char path) "") ".py" = true ->
  glue_parts (break_down path)
             (String.eqb (last (split "/"%char path) "") "__init__.py")
  = Return path.
Proof.
  intros Hpy.
  pose proof (split_nonnil "/"%char path) as Hne.
  destruct (exists_last Hne) as (front & f & Hsplit).
  rewrite Hsplit, last_last in *.
  rewrite (break_down_split path front f Hsplit).
  destruct (String.eqb_spec f "__init__.py") as [->|_].
  - rewrite glue_parts_package, <- Hsplit. f_equal.
    apply (join_split "/"%char).
  - rewrite Hpy, glue_parts_module.
    pose proof (endswith_split f ".py" Hpy) as E.
    simpl String.length in E. rewrite E, <- Hsplit. f_equal.
    apply (join_split "/"%char).
Qed.

(** X3.  [break_down] undoes [glue_parts]: parts without separator, glued
    with the package-init file, or glued without it when the last part is
    not [__init__], are found again. *)
Theorem break_down_undoes_glue_parts (parts : list string)
        (use_under_under_init : bool) :
  Forall (fun s => contains "/"%char s = false) parts ->
  use_under_under_init = true
  \/ (parts <> [] /\ last parts "" <> "__init__") ->
  exists path,
    glue_parts parts use_under_under_init = Return path
    /\ break_down path = parts.
Proof.
  intros Hsep [->|[Hne Hlast]].
  - eexists. split; [apply glue_parts_package|].
    now apply break_down_package.
  - destruct (exists_last Hne) as (front & m & ->).
    rewrite last_last in Hlast.
    apply Forall_app in Hsep as [Hfront Hm].
    inversion Hm as [|? ? Hm' _]; subst.
    destruct use_under_under_init.
    + eexists. split; [apply glue_parts_package|].
      apply break_down_package. apply Forall_app. split; auto.
    + eexists. split; [apply glue_parts_module|].
      now apply break_down_module.
Qed.
End Helpers.

Lemma glue_parts_undoes_break_down_witness :
  glue_parts (break_down "src/pkg/mod.py") false = Return "src/pkg/mod.py"
  /\ glue_parts (break_down "src/pkg/__init__.py") true
     = Return "src/pkg/__init__.py".
Proof.
  split.
  - exact (glue_parts_undoes_break_down "src/pkg/mod.py" eq_refl).
  - exact (glue_parts_undoes_break_down "src/pkg/__init__.py" eq_refl).
Defined.

Lemma break_down_undoes_glue_parts_witness :
  exists path,
    glue_parts ["src"; "pkg"; "mod"] false = Return path
    /\ break_down path = ["src"; "pkg"; "mod"].
Proof.
  apply (break_down_undoes_glue_parts ["src"; "pkg"; "mod"] false).
  - repeat constructor.
  - right. split; discriminate.
Defined.

(** ** The layouts: what they accept and what they produce *)

Section LayoutAgreement.
Import PyStrFacts PathFacts LayoutFacts HelperFacts RoundTrip Path.

Variable os : OS.
Variable self : BaseTestLayout.

Local Abbreviation sr := (source_root self).
Local Abbreviation tr := (test_root self).
Local Abbreviation pre := (prefix self).

(** X4.  SideBySide: the test file made for any source file (other than
    a bare [__init__.py]) is recognised as a test file. *)
Theorem side_by_side_test_file_is_test_file (source_file : string) :
  break_down source_file <> [] ->
  contains "/"%char pre = false ->
  pre ++ last (break_down source_file) "" <> "__init__" ->
  exists test_file,
    SideBySideLayout.get_test_file self source_file = Return test_file
    /\ SideBySideLayout.is_test_file self test_file = Return true.
Proof.
  intros Hne Hpre Hinit.
  pose proof (break_down_no_sep source_file) as Hsep.
  destruct (exists_last Hne) as (front & l & Hparts).
  rewrite Hparts, last_last in *.
  apply Forall_app in Hsep as [Hfront Hl].
  inversion Hl as [|? ? Hl' _]; subst.
  exists (join "/" (front ++ [(pre ++ l) ++ ".py"])). split.
  - unfold SideBySideLayout.get_test_file. rewrite Hparts.
    unfold last_part, set_last_part.
    destruct (front ++ [l])%list eqn:E; [now destruct front|].
    rewrite <- E. cbn [bind]. rewrite last_last, removelast_last.
    apply glue_parts_module.
  - unfold SideBySideLayout.is_test_file.
    rewrite break_down_module; auto;
      [|now rewrite contains_append, Hpre, Hl'].
    unfold last_part.
    destruct (front ++ [(pre ++ l)%string])%list eqn:E;
      [now destruct front|].
    rewrite <- E. cbn [bind]. now rewrite last_last, startswith_append.
Qed.

(** X5.  SideBySide: [get_source_candidates] yields a candidate, and then
    exactly one, for the files [is_test_file] accepts, and raises
    [NotATestFile] for the files it rejects. *)
Theorem side_by_side_candidates_iff_test_file (some_file : string) :
  (SideBySideLayout.is_test_file self some_file = Return true
   <-> exists c,
       SideBySideLayout.get_source_candidates self some_file = Return [c])
  /\ (SideBySideLayout.is_test_file self some_file = Return false
      <-> SideBySideLayout.get_source_candidates self some_file
          = Raise NotATestFile).
Proof.
  unfold SideBySideLayout.is_test_file,
    SideBySideLayout.get_source_candidates.
  destruct (break_down some_file) as [|p parts] eqn:E.
  - cbn. split; split; try discriminate. intros [c H]. discriminate.
  - unfold last_part, set_last_part. cbn [bind].
    destruct (startswith (last (p :: parts) "") pre) eqn:Hs; cbn [negb].
    + rewrite glue_parts_module. cbn [bind].
      split; split; try discriminate; eauto.
    + split; split; try discriminate; try reflexivity.
      intros [c H]. discriminate.
Qed.

(** X6.  Flat and FollowHierarchy: a file [is_test_file] accepts has
    source candidates, and exactly two of them. *)
Theorem test_file_has_two_candidates (layout : TestLayout.t)
        (some_file : string) :
  layout = FlatLayout.new os self
  \/ layout = FollowHierarchyLayout.new os self ->
  TestLayout.is_test_file layout some_file = Return true ->
  exists c1 c2,
    TestLayout.get_source_candidates layout some_file = Return [c1; c2].
Proof.
  intros [->| ->]; cbn [TestLayout.is_test_file
                          TestLayout.get_source_candidates
                          FlatLayout.new FollowHierarchyLayout.new].
  - unfold FlatLayout.is_test_file, FlatLayout.get_source_candidates.
    destruct (startswith some_file tr); cbn [negb]; [|discriminate].
    destruct (_relpath os some_file tr true) as [rel| |]; cbn [bind];
      try discriminate.
    destruct (List.length (break_down rel) =? 1)%nat; cbn [negb];
      [|discriminate].
    intros _.
    pose proof (split_nonnil "_"%char
                  (strip_prefix (nth 0 (break_down rel) "") pre)) as Hne.
    destruct (exists_last Hne) as (front & l & ->).
    cbn [app]. rewrite app_comm_cons, glue_parts_module, glue_parts_package.
    cbn [bind]. eauto.
  - unfold FollowHierarchyLayout.is_test_file,
      FollowHierarchyLayout.get_source_candidates.
    destruct (startswith some_file tr); cbn [negb]; [|discriminate].
    destruct (_relpath os some_file tr true) as [rel| |]; cbn [bind];
      try discriminate.
    intros _. cbn [app].
    assert (Hne : sr :: map (fun p => strip_prefix p pre) (break_down rel)
                  <> []) by discriminate.
    destruct (exists_last Hne) as (front & l & ->).
    rewrite glue_parts_module, glue_parts_package. cbn [bind]. eauto.
Qed.

Lemma glue_parts_cons (root : string) (parts : list string) (b : bool) :
  exists rest, glue_parts (root :: parts) b = Return (root ++ rest).
Proof.
  destruct b.
  - rewrite glue_parts_package. cbn [app].
    rewrite join_under by now destruct parts. eauto.
  - assert (Hne : root :: parts <> []) by discriminate.
    destruct (exists_last Hne) as (front & l & E). rewrite E.
    rewrite glue_parts_module.
    destruct front as [|r front]; injection E as <- E.
    + cbn. eauto.
    + cbn [app]. rewrite join_under by now destruct front. eauto.
Qed.

Lemma glue_parts_under (root : string) (parts : list string) (b : bool)
      (path : string) :
  glue_parts (root :: parts) b = Return path -> startswith path root = true.
Proof.
  destruct (glue_parts_cons root parts b) as [rest ->].
  intros [= <-]. apply startswith_append.
Qed.

(** X7.  Flat and FollowHierarchy: whatever the input, a test file that
    is returned starts with the test root, and the candidates that are
    returned start with the source root. *)
Theorem layout_results_start_with_roots (layout : TestLayout.t) :
  layout = FlatLayout.new os self
  \/ layout = FollowHierarchyLayout.new os self ->
  (forall source_file test_file,
      TestLayout.get_test_file layout source_file = Return test_file ->
      startswith test_file tr = true)
  /\ (forall test_file candidates,
         TestLayout.get_source_candidates layout test_file
         = Return candidates ->
         Forall (fun c => startswith c sr = true) candidates).
Proof.
  intros [->| ->]; cbn [TestLayout.get_test_file
                          TestLayout.get_source_candidates
                          FlatLayout.new FollowHierarchyLayout.new].
  - split.
    + intros s t. unfold FlatLayout.get_test_file.
      destruct (startswith s sr); cbn [negb]; [|discriminate].
      destruct (_relpath os s sr true); cbn [bind]; try discriminate.
      apply glue_parts_under.
    + intros t cs. unfold FlatLayout.get_source_candidates.
      destruct (startswith t tr); cbn [negb]; [|discriminate].
      destruct (_relpath os t tr true) as [rel| |]; cbn [bind];
        try discriminate.
      destruct (negb _); [discriminate|]. cbn [app].
      destruct (glue_parts _ false) as [c1| |] eqn:E1; cbn [bind];
        try discriminate.
      destruct (glue_parts _ true) as [c2| |] eqn:E2; cbn [bind];
        try discriminate.
      intros [= <-]. apply glue_parts_under in E1, E2.
      now repeat constructor.
  - split.
    + intros s t. unfold FollowHierarchyLayout.get_test_file.
      destruct (startswith s sr); cbn [negb]; [|discriminate].
      destruct (_relpath os s sr true); cbn [bind]; try discriminate.
      apply glue_parts_under.
    + intros t cs. unfold FollowHierarchyLayout.get_source_candidates.
      destruct (startswith t tr); cbn [negb]; [|discriminate].
      destruct (_relpath os t tr true) as [rel| |]; cbn [bind];
        try discriminate.
      cbn [app].
      destruct (glue_parts _ false) as [c1| |] eqn:E1; cbn [bind];
        try discriminate.
      destruct (glue_parts _ true) as [c2| |] eqn:E2; cbn [bind];
        try discriminate.
      intros [= <-]. apply glue_parts_under in E1, E2.
      now repeat constructor.
Qed.

(** X8.  Flat and FollowHierarchy: the test file made for a module file
    [sourceRoot/d1/.../dn/m.py] is recognised as a test file. *)
Theorem made_test_file_is_test_file (dirs : list string) (m : string) :
  has_relpath os = true ->
  posixpath.isabs (getcwd os) = true ->
  sr <> "" -> tr <> "" -> contains "/"%char pre = false ->
  Forall (fun s => segment s = true) dirs ->
  contains "/"%char m = false -> m <> "__init__" ->
  pre ++ m <> "__init__" ->
  pre ++ join "_" (dirs ++ [m]) <> "__init__" ->
  (exists test_file,
      FollowHierarchyLayout.get_test_file os self (module_path sr dirs m)
      = Return test_file
      /\ FollowHierarchyLayout.is_test_file os self test_file = Return true)
  /\ (exists test_file,
         FlatLayout.get_test_file os self (module_path sr dirs m)
         = Return test_file
         /\ FlatLayout.is_test_file os self test_file = Return true).
Proof.
  intros Hrel Hcwd Hsr Htr Hpre Hd Hm Hinit Hpinit Hflat.
  assert (Hpm : contains "/"%char (pre ++ m) = false)
    by now rewrite contains_append, Hpre, Hm.
  assert (Hpd : Forall (fun s => segment s = true)
                       (map (fun s => pre ++ s) dirs))
    by now apply prefixed_segments.
  split.
  - eexists. split; [now apply follow_hierarchy_test_file|].
    unfold FollowHierarchyLayout.is_test_file, module_path.
    rewrite startswith_append. cbn [negb].
    rewrite _relpath_under; auto using module_segments;
      [|now destruct (map _ dirs)].
    cbn [bind]. rewrite break_down_module by auto using segments_no_sep.
    f_equal. apply forallb_forall. intros x Hx.
    apply in_app_or in Hx as [Hx|[<-|[]]].
    + apply in_map_iff in Hx as (d & <- & _). apply startswith_append.
    + apply startswith_append.
  - eexists. split; [now apply flat_test_file|].
    assert (Hname : contains "/"%char (pre ++ join "_" (dirs ++ [m])) = false).
    { rewrite contains_append, Hpre. apply contains_join; [reflexivity|].
      apply Forall_app. split; [now apply segments_no_sep|].
      now repeat constructor. }
    unfold FlatLayout.is_test_file, module_path.
    rewrite startswith_append. cbn [negb].
    rewrite _relpath_under; auto;
      [|discriminate
       |constructor; [now apply module_file_segment | constructor]].
    cbn [bind]. rewrite break_down_module by auto.
    cbn [app length Nat.eqb negb nth]. now rewrite startswith_append.
Qed.
End LayoutAgreement.

Lemma side_by_side_test_file_is_test_file_witness :
  exists test_file,
    SideBySideLayout.get_test_file Example.layout "src/pkg/__init__.py"
    = Return test_file
    /\ SideBySideLayout.is_test_file Example.layout test_file = Return true.
Proof.
  apply (side_by_side_test_file_is_test_file Example.layout
           "src/pkg/__init__.py");
    [discriminate | reflexivity | discriminate].
Defined.

Lemma test_file_has_two_candidates_witness :
  exists c1 c2,
    FlatLayout.get_source_candidates (Example.os "/proj" true)
      Example.layout "tests/test_pkg_mod.py" = Return [c1; c2].
Proof.
  apply (test_file_has_two_candidates (Example.os "/proj" true)
           Example.layout
           (FlatLayout.new (Example.os "/proj" true) Example.layout)
           "tests/test_pkg_mod.py");
    [left; reflexivity | reflexivity].
Defined.

Lemma layout_results_start_with_roots_witness :
  startswith "tests/test_a/test_b.py" (test_root Example.layout) = true
  /\ Forall (fun c => startswith c (source_root Example.layout) = true)
            ["src/a/b.py"; "src/a/b/__init__.py"].
Proof.
  destruct (layout_results_start_with_roots (Example.os "/proj" true)
              Example.layout
              (FollowHierarchyLayout.new (Example.os "/proj" true)
                                         Example.layout)
              (or_intror eq_refl)) as [Htest Hsource].
  split.
  - exact (Htest "src/a/b.py" "tests/test_a/test_b.py" eq_refl).
  - exact (Hsource "tests/test_a/test_b.py" _ eq_refl).
Defined.

Lemma made_test_file_is_test_file_witness :
  (exists test_file,
      FollowHierarchyLayout.get_test_file (Example.os "/proj" true)
        Example.layout "src/pkg/mod.py" = Return test_file
      /\ FollowHierarchyLayout.is_test_file (Example.os "/proj" true)
           Example.layout test_file = Return true)
  /\ (exists test_file,
         FlatLayout.get_test_file (Example.os "/proj" true)
           Example.layout "src/pkg/mod.py" = Return test_file
         /\ FlatLayout.is_test_file (Example.os "/proj" true)
              Example.layout test_file = Return true).
Proof.
  apply (made_test_file_is_test_file (Example.os "/proj" true)
           Example.layout ["pkg"] "mod");
    try reflexivity; try discriminate.
  repeat constructor.
Defined.

(** ** From a source file to its test file, through the project *)

Section SourceToTest.
Import PyStrFacts PathFacts RelpathFacts LayoutFacts HelperFacts RoundTrip Path.

Variable os : OS.
Variable vim : Vim.

Lemma get_relative_source_path_under (fuel : nat)
      (path src_root : string) (segs : list string) :
  has_relpath os = true ->
  posixpath.isabs (getcwd os) = true ->
  find_source_root os vim fuel path = Return src_root ->
  path = src_root ++ "/" ++ join "/" segs ->
  segs <> [] -> Forall (fun s => segment s = true) segs ->
  startswith (realpath os path) src_root = true ->
  get_relative_source_path os vim fuel path false
  = Return (join "/" segs).
Proof.
  intros Hrel Hcwd Hroot -> Hne Hsegs Hreal.
  unfold get_relative_source_path. rewrite Hroot. cbn [bind].
  rewrite Hreal. cbn [orb]. unfold _relpath. rewrite Hrel. cbn [andb].
  apply relpath_under; auto.
  eapply find_source_root_nonempty; eassumption.
Qed.

(** X9.  With the flat or the follow-hierarchy layout,
    [get_test_file_for_source_file] hands the layout the path relative to
    the source root, which the layout then rejects for not starting with
    the source root: a source file [src_root/d1/.../m.py] whose relative
    path does not happen to start with [g:PyUnitSourceRoot] gets no test
    file but the error [NotUnderSourceRoot]. *)
Theorem flat_and_follow_hierarchy_reject_the_relative_path
        (fuel : nat) (path src_root : string) (segs : list string) :
  has_relpath os = true ->
  posixpath.isabs (getcwd os) = true ->
  PyUnitTestsStructure vim = "flat"
  \/ PyUnitTestsStructure vim = "follow-hierarchy" ->
  find_source_root os vim fuel path = Return src_root ->
  path = src_root ++ "/" ++ join "/" segs ->
  segs <> [] -> Forall (fun s => segment s = true) segs ->
  startswith (realpath os path) src_root = true ->
  startswith (join "/" segs) (PyUnitSourceRoot vim) = false ->
  get_test_file_for_source_file os vim fuel path
  = Raise (NotUnderSourceRoot (join "/" segs)).
Proof.
  intros Hrel Hcwd Hlayout Hroot Hpath Hne Hsegs Hreal Hstart.
  unfold get_test_file_for_source_file.
  rewrite (get_relative_source_path_under fuel path src_root segs)
    by assumption.
  cbn [bind]. unfold get_implementing_class.
  destruct Hlayout as [-> | ->]; cbn [String.eqb Ascii.eqb Bool.eqb bind
    TestLayout.get_test_file FlatLayout.new FollowHierarchyLayout.new].
  - unfold FlatLayout.get_test_file.
    cbn [source_root BaseTestLayout__init__]. now rewrite Hstart.
  - unfold FollowHierarchyLayout.get_test_file.
    cbn [source_root BaseTestLayout__init__]. now rewrite Hstart.
Qed.

(** X10.  With the side-by-side layout,
    [get_test_file_for_source_file] returns the test file of a module
    file [src_root/d1/.../dn/m.py] as [d1/.../dn/<prefix>m.py]: a path
    relative to the source root, not an absolute one. *)
Theorem side_by_side_test_file_is_relative_to_source_root
        (fuel : nat) (path src_root : string) (dirs : list string)
        (m : string) :
  has_relpath os = true ->
  posixpath.isabs (getcwd os) = true ->
  PyUnitTestsStructure vim = "side-by-side" ->
  find_source_root os vim fuel path = Return src_root ->
  path = src_root ++ "/" ++ join "/" (dirs ++ [m ++ ".py"]) ->
  Forall (fun s => segment s = true) dirs ->
  contains "/"%char m = false -> m <> "__init__" ->
  startswith (realpath os path) src_root = true ->
  get_test_file_for_source_file os vim fuel path
  = Return (join "/" (dirs ++ [(PyUnitTestPrefix vim ++ m) ++ ".py"]))
  /\ (segment (PyUnitTestPrefix vim ++ m ++ ".py") = true ->
      posixpath.isabs
        (join "/" (dirs ++ [(PyUnitTestPrefix vim ++ m) ++ ".py"]))
      = false).
Proof.
  intros Hrel Hcwd Hlayout Hroot Hpath Hdirs Hm Hinit Hreal.
  assert (Hsegs : Forall (fun s => segment s = true) (dirs ++ [m ++ ".py"])).
  { apply Forall_app. split; [assumption|].
    constructor; [|constructor]. now apply module_file_segment. }
  split.
  - unfold get_test_file_for_source_file.
    rewrite (get_relative_source_path_under fuel path src_root
               (dirs ++ [m ++ ".py"])); auto; [|now destruct dirs].
    cbn [bind]. unfold get_implementing_class. rewrite Hlayout.
    cbn [String.eqb Ascii.eqb Bool.eqb bind TestLayout.get_test_file
           SideBySideLayout.new].
    rewrite (side_by_side_test_file _ _ dirs m); auto.
    apply (split_join "/"%char); [now destruct dirs|].
    now apply segments_no_sep.
  - intros Hseg. rewrite <- append_assoc in Hseg.
    destruct dirs as [|d dirs].
    + now apply segment_not_abs.
    + inversion Hdirs; subst. cbn [app].
      rewrite join_cons by now destruct dirs.
      rewrite isabs_append; [now apply segment_not_abs|].
      now apply (segment_spec d).
Qed.
End SourceToTest.

Lemma flat_and_follow_hierarchy_reject_the_relative_path_witness :
  get_test_file_for_source_file (Example.os "/proj" true)
    (Example.vim "flat" [".git"]) 5 "/proj/src/pkg/mod.py"
  = Raise (NotUnderSourceRoot "pkg/mod.py")
  /\ get_test_file_for_source_file (Example.os "/proj" true)
       (Example.vim "follow-hierarchy" [".git"]) 5 "/proj/src/pkg/mod.py"
     = Raise (NotUnderSourceRoot "pkg/mod.py").
Proof.
  split.
  - apply (flat_and_follow_hierarchy_reject_the_relative_path
             (Example.os "/proj" true) (Example.vim "flat" [".git"])
             5 "/proj/src/pkg/mod.py" "/proj/src" ["pkg"; "mod.py"]);
      try reflexivity; try discriminate.
    + now left.
    + repeat constructor.
  - apply (flat_and_follow_hierarchy_reject_the_relative_path
             (Example.os "/proj" true)
             (Example.vim "follow-hierarchy" [".git"])
             5 "/proj/src/pkg/mod.py" "/proj/src" ["pkg"; "mod.py"]);
      try reflexivity; try discriminate.
    + now right.
    + repeat constructor.
Defined.

Lemma side_by_side_test_file_is_relative_to_source_root_witness :
  get_test_file_for_source_file (Example.os "/proj" true)
    (Example.vim "side-by-side" [".git"]) 5 "/proj/src/pkg/mod.py"
  = Return "pkg/test_mod.py"
  /\ posixpath.isabs "pkg/test_mod.py" = false.
Proof.
  destruct (side_by_side_test_file_is_relative_to_source_root
              (Example.os "/proj" true)
              (Example.vim "side-by-side" [".git"])
              5 "/proj/src/pkg/mod.py" "/proj/src" ["pkg"] "mod"
              eq_refl eq_refl eq_refl eq_refl eq_refl
              ltac:(repeat constructor) eq_refl ltac:(discriminate)
              eq_refl) as [H1 H2].
  split; [exact H1 | exact (H2 eq_refl)].
Defined.

(** ** From a test file to its source file, through the project *)

Section TestToSource.
Import PyStrFacts PathFacts RelpathFacts LayoutFacts HelperFacts Path.

Variable os : OS.
Variable vim : Vim.

(** X11.  Whatever the layout, a path [find_source_file_for_test_file]
    returns is a file. *)
Theorem found_source_file_is_a_file (fuel : nat) (path sourcefile : string) :
  find_source_file_for_test_file os vim fuel path = Return sourcefile ->
  isfile os sourcefile = true.
Proof.
  unfold find_source_file_for_test_file.
  destruct (get_tests_root os vim fuel path) as [testsroot| |];
    cbn [bind]; try discriminate.
  destruct (_relpath os path testsroot true) as [rel| |];
    cbn [bind]; try discriminate.
  destruct (find_source_root os vim fuel path) as [src_root| |];
    cbn [bind]; try discriminate.
  destruct (String.eqb (PyUnitTestsStructure vim) "flat").
  - destruct (find (isfile os) _) as [guess|] eqn:E; [|discriminate].
    destruct (String.eqb guess ""); [discriminate|].
    intros [= <-]. now apply find_some in E.
  - match goal with
    | |- context [isfile os ?f] => destruct (isfile os f) eqn:E1
    end; cbn [negb].
    + now intros [= <-].
    + destruct (posixpath.splitext _) as [filepath extension].
      match goal with
      | |- context [isfile os ?f] => destruct (isfile os f) eqn:E2
      end; cbn [negb]; [now intros [= <-] | discriminate].
Qed.

Lemma join_empty_cons (x : string) (xs : list string) :
  join "" (x :: xs) = x ++ join "" xs.
Proof.
  destruct xs; [simpl; now rewrite append_empty_r | reflexivity].
Qed.

Lemma interlace_same_separator (sep e : string) (parts : list string)
      (a : string) :
  join "" (interlace (a :: parts) (repeat sep (List.length parts) ++ [e]))
  = join sep (a :: parts) ++ e.
Proof.
  revert a. induction parts as [|b parts IH]; intros a; [reflexivity|].
  change (interlace (a :: b :: parts)
            (repeat sep (List.length (b :: parts)) ++ [e]))
    with (a :: sep
            :: interlace (b :: parts)
                 (repeat sep (List.length parts) ++ [e])).
  rewrite !join_empty_cons, IH.
  rewrite (join_cons sep a (b :: parts)) by discriminate.
  now rewrite !append_assoc.
Qed.

Lemma splitext_append (p : string) :
  fst (posixpath.splitext p) ++ snd (posixpath.splitext p) = p.
Proof.
  unfold posixpath.splitext. destruct (_ && _); cbn [fst snd].
  - apply take_drop.
  - apply append_empty_r.
Qed.

(** X12.  The flat search always guesses the file named like the test
    file without its prefix, underscores kept: [src_root/sourcefile] is
    among the guesses, whatever the name. *)
Theorem flat_guesses_include_the_plain_name (src_root sourcefile : string) :
  In (posixpath.join2 src_root sourcefile)
     (flat_guesses src_root sourcefile).
Proof.
  unfold flat_guesses.
  pose proof (splitext_append sourcefile) as Hext.
  destruct (posixpath.splitext sourcefile) as [stripped extension].
  cbn [fst snd] in Hext.
  set (parts := split "_"%char stripped).
  apply in_map_iff.
  exists (repeat "_" (List.length parts - 1) ++ [extension])%list.
  split.
  - pose proof (split_nonnil "_"%char stripped) as Hne. fold parts in Hne.
    pose proof (join_split "_"%char stripped) as Hjoin. fold parts in Hjoin.
    destruct parts as [|a parts']; [congruence|].
    cbn [List.length]. rewrite Nat.sub_1_r. cbn [Nat.pred].
    rewrite interlace_same_separator.
    change (join "_" (a :: parts'))
      with (join (String "_"%char "") (a :: parts')).
    now rewrite Hjoin, Hext.
  - apply slashgenerator_In.
    exists (repeat "_" (List.length parts - 1)), extension.
    repeat split.
    + apply repeat_length.
    + apply Forall_forall. intros x Hx. apply repeat_spec in Hx. subst.
      right. now left.
    + now left.
Qed.
End TestToSource.

Lemma found_source_file_is_a_file_witness :
  isfile (Example.os "/proj" true) "/proj/src/pkg/mod.py" = true.
Proof.
  exact (found_source_file_is_a_file (Example.os "/proj" true)
           (Example.vim "follow-hierarchy" [".git"]) 5
           "/proj/tests/test_pkg/test_mod.py" "/proj/src/pkg/mod.py"
           eq_refl).
Defined.

(** ** The project root that is found *)

Section ProjectRootFound.
Variable os : OS.
Variable vim : Vim.

Lemma find_project_root_loop_sound (fuel : nat) (start : string) :
  match find_project_root_loop os vim fuel start with
  | Return root =>
      exists k,
        root = posixpath.normpath (ancestor k start)
        /\ has_indicator os vim (ancestor k start) = true
        /\ is_fs_root os vim (ancestor k start) = false
        /\ forall j, (j < k)%nat ->
                     is_fs_root os vim (ancestor j start) = false
                     /\ has_indicator os vim (ancestor j start) = false
  | Raise e => e = ProjectRootNotFound
  | OutOfFuel => True
  end.
Proof.
  revert start. induction fuel as [|fuel IH]; intros start; [exact I|].
  cbn [find_project_root_loop].
  destruct (is_fs_root os vim start) eqn:Hroot; cbn [negb]; [reflexivity|].
  destruct (has_indicator os vim start) eqn:Hind.
  - exists 0%nat. split; [|split; [|split]]; auto. intros j Hj. lia.
  - specialize (IH (posixpath.join2 start posixpath.pardir)).
    destruct (find_project_root_loop os vim fuel _); auto.
    destruct IH as (k & Hk & Hi & Hr & Hbelow).
    exists (S k). rewrite !ancestor_succ.
    split; [|split; [|split]]; auto.
    intros j Hj. destruct j as [|j]; [now split|].
    rewrite ancestor_succ. apply Hbelow. lia.
Qed.

(** X13.  What [find_project_root] returns is the normal form of a
    directory that contains an indicator and is no stop boundary, reached
    from a directory by climbing over directories that are no stop
    boundary and contain no indicator; and the only error it raises is
    [ProjectRootNotFound]. *)
Theorem found_project_root_has_an_indicator (fuel : nat) (path : string) :
  match find_project_root os vim fuel path with
  | Return root =>
      exists start k,
        isdir os start = true
        /\ root = posixpath.normpath (ancestor k start)
        /\ has_indicator os vim (ancestor k start) = true
        /\ is_fs_root os vim (ancestor k start) = false
        /\ forall j, (j < k)%nat ->
                     is_fs_root os vim (ancestor j start) = false
                     /\ has_indicator os vim (ancestor j start) = false
  | Raise e => e = ProjectRootNotFound
  | OutOfFuel => True
  end.
Proof.
  revert path. induction fuel as [|fuel IH]; intros path; [exact I|].
  cbn [find_project_root].
  destruct (isdir os path) eqn:Hdir; cbn [negb].
  - pose proof (find_project_root_loop_sound fuel path) as H.
    destruct (find_project_root_loop os vim fuel path); auto.
    destruct H as (k & H). exists path, k. auto.
  - apply IH.
Qed.
End ProjectRootFound.

(** ** [_relpath] of a path to itself *)

(** X14.  [_relpath] maps a non-empty path and itself to [.], with the
    library's [relpath] and with the program's own implementation
    alike. *)
Theorem _relpath_of_a_path_to_itself (os : OS) (path : string)
        (try_stdlib : bool) :
  path <> "" -> _relpath os path path try_stdlib = Return ".".
Proof.
  intros Hpath. unfold _relpath. destruct (try_stdlib && has_relpath os).
  - now apply RelpathFacts.relpath_same.
  - apply RelpathOwn._relpath_own_same.
Qed.

Lemma _relpath_of_a_path_to_itself_witness :
  _relpath (Example.os "/proj" true) "src/../tests" "src/../tests" true
  = Return "."
  /\ _relpath (Example.os "/proj" false) "src/../tests" "src/../tests" true
     = Return ".".
Proof.
  split; apply _relpath_of_a_path_to_itself; discriminate.
Defined.

(** ** [normpath] on absolute paths, as strings *)

Module NormpathFacts.
Import PyStrFacts PathFacts RelpathFacts posixpath Path.

Lemma isabs_slash (x : string) : isabs ("/" ++ x) = true.
Proof. apply (isabs_cons "/"%char x). Qed.

Lemma normpath_absolute (q : string) :
  isabs q = true ->
  normpath q
  = times sep_char (initial_slashes q)
    ++ PyStr.join sep (fold_left (norm_step 1) (split sep_char q) []).
Proof.
  intros Habs. unfold normpath, initial_slashes.
  destruct (String.eqb_spec q "") as [->|_]; [discriminate|].
  unfold isabs in Habs. rewrite Habs.
  destruct (startswith q "//" && negb (startswith q "///")).
  - rewrite (fold_norm_step_absolute 1 0). reflexivity.
  - reflexivity.
Qed.

Lemma startswith_append_long (a x p : string) :
  (String.length p <= String.length a)%nat ->
  startswith (a ++ x) p = startswith a p.
Proof.
  revert a. induction p as [|c p IH]; intros a Hlen.
  - now rewrite !startswith_empty.
  - destruct a as [|b a]; [simpl in Hlen; lia|].
    simpl append. rewrite !startswith_cons. f_equal.
    apply IH. simpl in Hlen. lia.
Qed.

Lemma initial_slashes_append (a x : string) :
  (3 <= String.length a)%nat ->
  initial_slashes (a ++ x) = initial_slashes a.
Proof.
  intros Hlen. unfold initial_slashes.
  now rewrite !startswith_append_long by (simpl; lia).
Qed.

(** Segments appended to an absolute path stay appended in its normal
    form. *)
Lemma normpath_append_segments (a : string) (segs : list string) :
  isabs a = true -> (3 <= String.length a)%nat ->
  segs <> [] -> Forall (fun s => segment s = true) segs ->
  exists rest,
    normpath (a ++ "/" ++ PyStr.join "/" segs) = normpath a ++ rest.
Proof.
  intros Habs Hlen Hne Hsegs.
  assert (Ha : a <> "") by (destruct a; [discriminate | discriminate]).
  rewrite !normpath_absolute
    by (try rewrite isabs_append by assumption; assumption).
  rewrite initial_slashes_append by assumption.
  change ("/" ++ PyStr.join "/" segs)
    with (String sep_char (PyStr.join (String sep_char "") segs)).
  rewrite split_append, split_join, fold_left_app; auto;
    [|eapply Forall_impl; [|exact Hsegs];
      intros s Hs; now apply segment_spec in Hs].
  rewrite fold_norm_step_segments by assumption.
  set (c := fold_left (norm_step 1) (split sep_char a) []).
  destruct c as [|x c].
  - cbn [app]. exists (PyStr.join sep segs).
    cbn [PyStr.join String.concat]. now rewrite append_empty_r.
  - exists (sep ++ PyStr.join sep segs).
    rewrite join_app by (auto; discriminate).
    now rewrite !append_assoc.
Qed.

(** A path of segments under the root is its own normal form. *)
Lemma normpath_of_segments (bs : list string) :
  Forall (fun s => segment s = true) bs ->
  normpath ("/" ++ PyStr.join "/" bs) = "/" ++ PyStr.join "/" bs.
Proof.
  intros Hbs. rewrite normpath_absolute by apply isabs_slash.
  assert (Hk : initial_slashes ("/" ++ PyStr.join "/" bs) = 1%nat).
  { unfold initial_slashes.
    change ("/" ++ PyStr.join "/" bs) with (String "/"%char (PyStr.join "/" bs)).
    change "//" with (String "/"%char "/").
    rewrite startswith_cons, Ascii.eqb_refl. cbn [andb].
    destruct bs as [|b bs]; [reflexivity|].
    inversion Hbs as [|? ? Hb _]; subst.
    assert (isabs (PyStr.join "/" (b :: bs)) = false) as Hj.
    { destruct bs; [now apply segment_not_abs|].
      rewrite join_cons by discriminate.
      rewrite isabs_append; [now apply segment_not_abs|].
      now apply (segment_spec b). }
    unfold isabs in Hj. now rewrite Hj. }
  rewrite Hk.
  change (split sep_char ("/" ++ PyStr.join "/" bs))
    with ("" :: split sep_char (PyStr.join "/" bs)).
  cbn [fold_left]. change (norm_step 1 [] "") with (@nil string).
  destruct bs as [|b bs]; [reflexivity|].
  change (PyStr.join "/" (b :: bs))
    with (PyStr.join (String sep_char "") (b :: bs)) at 1.
  rewrite split_join;
    [|discriminate
     |eapply Forall_impl; [|exact Hbs];
      intros s Hs; now apply segment_spec in Hs].
  now rewrite fold_norm_step_segments.
Qed.

Lemma join_segments_not_endswith_sep (x : string) (bs : list string) :
  bs <> [] -> Forall (fun s => segment s = true) bs ->
  endswith (x ++ PyStr.join "/" bs) "/" = false.
Proof.
  intros Hne Hbs. destruct (exists_last Hne) as (front & l & ->).
  apply Forall_app in Hbs as [_ Hl]. inversion Hl as [|? ? Hl' _]; subst.
  assert (Hlen : (String.length "/" <= String.length l)%nat).
  { apply segment_spec in Hl' as (H & _). destruct l; [congruence|].
    simpl. lia. }
  destruct front as [|f front].
  - cbn [app PyStr.join String.concat]. rewrite endswith_append_long by exact Hlen.
    now apply segment_not_endswith_sep.
  - rewrite join_app by discriminate. rewrite <- !append_assoc.
    rewrite endswith_append_long by exact Hlen.
    now apply segment_not_endswith_sep.
Qed.

End NormpathFacts.

(** ** The program's own [_relpath], below an absolute base *)

Section OwnRelpath.
Import PyStrFacts PathFacts RelpathFacts NormpathFacts Path.

(** X15.  Where [_relpath] runs its own implementation, it inverts the
    joining of segments under an absolute base in normal form
    [/b1/.../bn]: the path [base/s1/.../sm] relative to [base] is
    [s1/.../sm], whatever the working directory. *)
Theorem own_relpath_below_absolute_base (os : OS) (try_stdlib : bool)
        (bs segs : list string) :
  try_stdlib && has_relpath os = false ->
  bs <> [] -> segs <> [] ->
  Forall (fun s => segment s = true) bs ->
  Forall (fun s => segment s = true) segs ->
  _relpath os (("/" ++ join "/" bs) ++ "/" ++ join "/" segs)
           ("/" ++ join "/" bs) try_stdlib
  = Return (join "/" segs).
Proof.
  intros Hown Hbs Hsegs Fbs Fsegs. unfold _relpath. rewrite Hown.
  unfold _relpath_own, posixpath.abspath.
  set (base := "/" ++ join "/" bs).
  assert (Hpath : base ++ "/" ++ join "/" segs
                  = "/" ++ join "/" (bs ++ segs)).
  { unfold base. rewrite join_app by assumption.
    now rewrite !append_assoc. }
  assert (Habs1 : posixpath.isabs base = true) by apply isabs_slash.
  assert (Habs2 : posixpath.isabs (base ++ "/" ++ join "/" segs) = true)
    by (rewrite Hpath; apply isabs_slash).
  rewrite Habs1, Habs2.
  assert (N1 : posixpath.normpath base = base)
    by now apply normpath_of_segments.
  assert (N2 : posixpath.normpath (base ++ "/" ++ join "/" segs)
               = base ++ "/" ++ join "/" segs).
  { rewrite Hpath. apply normpath_of_segments. apply Forall_app; auto. }
  rewrite !N1, !N2.
  unfold posixpath.sep.
  assert (Hend : endswith base "/" = false)
    by now apply join_segments_not_endswith_sep.
  rewrite Hend. cbn [negb].
  destruct (String.eqb_spec (base ++ "/" ++ join "/" segs) base) as [E|_].
  { apply (f_equal String.length) in E. rewrite length_append in E.
    simpl in E. lia. }
  rewrite <- append_assoc, startswith_append, drop_append. reflexivity.
Qed.
End OwnRelpath.

Lemma own_relpath_below_absolute_base_witness :
  _relpath (Example.os "/tmp" false) "/proj/src/pkg/mod.py" "/proj/src" true
  = Return "pkg/mod.py".
Proof.
  apply (own_relpath_below_absolute_base (Example.os "/tmp" false) true
           ["proj"; "src"] ["pkg"; "mod.py"]);
    try reflexivity; try discriminate; repeat constructor.
Defined.

(** ** The files below the tests root *)

Section BelowTestsRoot.
Import PyStrFacts PathFacts RelpathFacts NormpathFacts Path.

Variable os : OS.
Variable vim : Vim.

Lemma length_anchored (cwd x : string) :
  (String.length x <= String.length (anchored cwd x))%nat.
Proof.
  unfold anchored, posixpath.join2.
  destruct (posixpath.isabs x) eqn:E; [lia|].
  unfold posixpath.isabs in E. rewrite E.
  destruct (_ || _); rewrite !length_append; simpl; lia.
Qed.

(** X16.  Every path made of segments below the tests root
    [root/g:PyUnitTestsRoot] is classified as a test file. *)
Theorem below_tests_root_is_test_file (fuel : nat) (path root : string)
        (segs : list string) :
  posixpath.isabs (getcwd os) = true ->
  find_project_root os vim fuel path = Return root ->
  PyUnitTestsRoot vim <> "" ->
  path = (root ++ "/" ++ PyUnitTestsRoot vim) ++ "/" ++ join "/" segs ->
  segs <> [] -> Forall (fun s => segment s = true) segs ->
  is_test_file os vim fuel path = Return true.
Proof.
  intros Hcwd Hroot Hloc -> Hne Hsegs.
  pose proof (find_project_root_nonempty os vim fuel _ root Hroot) as Hr.
  unfold is_test_file, get_tests_root. rewrite Hroot. cbn [bind].
  change (join posixpath.sep [root; PyUnitTestsRoot vim])
    with (root ++ "/" ++ PyUnitTestsRoot vim).
  set (t := root ++ "/" ++ PyUnitTestsRoot vim).
  assert (Ht : t <> "") by now apply append_nonempty_l.
  assert (Hlen : (3 <= String.length t)%nat).
  { unfold t. rewrite !length_append.
    destruct root; [congruence|].
    destruct (PyUnitTestsRoot vim); [congruence|]. simpl. lia. }
  unfold posixpath.abspath.
  fold (anchored (getcwd os) t).
  fold (anchored (getcwd os) (t ++ "/" ++ join "/" segs)).
  rewrite anchored_under by assumption.
  destruct (normpath_append_segments (anchored (getcwd os) t) segs)
    as [rest ->]; auto.
  - now apply anchored_absolute.
  - pose proof (length_anchored (getcwd os) t). lia.
  - now rewrite startswith_append.
Qed.
End BelowTestsRoot.

Lemma below_tests_root_is_test_file_witness :
  is_test_file (Example.os "/proj/src" true) (Example.vim "flat" [".git"]) 5
    "/proj/tests/unit/test_x.py" = Return true.
Proof.
  apply (below_tests_root_is_test_file (Example.os "/proj/src" true)
           (Example.vim "flat" [".git"]) 5 "/proj/tests/unit/test_x.py"
           "/proj" ["unit"; "test_x.py"]);
    try reflexivity; try discriminate; repeat constructor.
Defined.

(** ** Opening the counterpart *)

Section OpenBuffer.
Import PyStrFacts.

Lemma direction_cases (d : string) :
  d = "top" \/ d = "left" \/ d = "right" \/ d = "bottom" \/ d = "no"
  \/ (getitem split_cmd.invert d = None
      /\ getitem split_cmd.mapping d = None).
Proof.
  unfold split_cmd.invert, split_cmd.mapping. cbn [getitem].
  destruct (String.eqb_spec d "top"); [auto|].
  destruct (String.eqb_spec d "left"); [auto|].
  destruct (String.eqb_spec d "right"); [auto 6|].
  destruct (String.eqb_spec d "bottom"); [auto 6|].
  destruct (String.eqb_spec d "no"); [auto 8|].
  auto 10.
Qed.

Variable w : VimWindow.

(** X17.  [_vim_split_cmd] knows five directions and fails with
    [KeyError] on any other; on a known direction, inverting is an
    involution: the inverted command of the opposite direction is the
    command of the direction itself. *)
Theorem split_cmd_of_the_opposite_direction (inverted : bool) :
  match getitem split_cmd.invert (PyUnitTestsSplitWindow w) with
  | Some opposite =>
      getitem split_cmd.invert opposite = Some (PyUnitTestsSplitWindow w)
      /\ _vim_split_cmd (with_direction w opposite) (negb inverted)
         = _vim_split_cmd w inverted
      /\ _vim_split_cmd w inverted <> None
  | None => _vim_split_cmd w inverted = None
  end.
Proof.
  unfold _vim_split_cmd. cbn [PyUnitTestsSplitWindow with_direction].
  destruct (direction_cases (PyUnitTestsSplitWindow w))
    as [E|[E|[E|[E|[E|[E1 E2]]]]]].
  1-5: rewrite E; destruct inverted; cbn; repeat split; discriminate.
  rewrite E1, E2. now destruct inverted.
Qed.

(** X18.  A command [_open_buffer_cmd] returns ends in the path; it is
    [edit path] exactly when no split is configured, and otherwise the
    split options followed by [sbuffer] when Vim has a buffer for the
    path and by [split] when it has none. *)
Theorem open_buffer_cmd_shape (path : string) (opposite : bool)
        (command : string) :
  _open_buffer_cmd w path opposite = Some command ->
  endswith command (" " ++ path) = true
  /\ (command = "edit " ++ path <-> PyUnitTestsSplitWindow w = "no")
  /\ (PyUnitTestsSplitWindow w <> "no" ->
      exists splitopts,
        _vim_split_cmd w opposite = Some splitopts
        /\ command
           = splitopts
               ++ (if (bufexists w path =? 0)%Z then " split"
                   else " sbuffer")
               ++ " " ++ path).
Proof.
  unfold _open_buffer_cmd.
  destruct (_vim_split_cmd w opposite) as [splitopts|] eqn:Hs;
    [|discriminate].
  intros [= <-]. split; [apply endswith_append|].
  assert (Hopts : (splitopts = "" /\ PyUnitTestsSplitWindow w = "no")
                  \/ (PyUnitTestsSplitWindow w <> "no"
                      /\ exists c rest, splitopts = String c rest
                                        /\ c <> "e"%char)).
  { unfold _vim_split_cmd in Hs.
    destruct (direction_cases (PyUnitTestsSplitWindow w))
      as [E|[E|[E|[E|[E|[E1 E2]]]]]].
    1-5: rewrite E in *; destruct opposite; cbn in Hs;
      injection Hs as <-;
      solve [ left; split; reflexivity
            | right; split; [discriminate|];
              eexists _, _; split; [reflexivity | discriminate] ].
    rewrite E1, E2 in Hs. destruct opposite; discriminate. }
  destruct Hopts as [[-> Hno] | (Hno & c & rest & -> & Hc)].
  - cbn [String.eqb]. split; [now split|]. intros H. now elim H.
  - cbn [String.eqb]. split.
    + split; [|intros H; now elim Hno].
      destruct (bufexists w path =? 0)%Z; cbn [negb]; simpl;
        intros [= H _]; now elim Hc.
    + intros _. eexists. split; [reflexivity|].
      destruct (bufexists w path =? 0)%Z; cbn [negb];
        now rewrite append_assoc.
Qed.
End OpenBuffer.

Lemma open_buffer_cmd_shape_witness :
  endswith "vert rightb split src/foo.py" " src/foo.py" = true
  /\ ("vert rightb split src/foo.py" = "edit src/foo.py"
      <-> "left" = "no").
Proof.
  destruct (open_buffer_cmd_shape
              {| PyUnitTestsSplitWindow := "left"; bufexists := fun _ => 0%Z |}
              "src/foo.py" true "vert rightb split src/foo.py" eq_refl)
    as (H1 & H2 & _).
  split; [exact H1 | exact H2].
Defined.

(** ** Source files that share a test file *)

Section SharedTestFile.
Import PyStrFacts PathFacts LayoutFacts HelperFacts RoundTrip Path.

Variable os : OS.
Variable self : BaseTestLayout.

Local Abbreviation sr := (source_root self).

(** X19.  Flat and FollowHierarchy: the package-init file
    [sourceRoot/d1/.../dn/__init__.py] and the module file
    [sourceRoot/d1/.../dn.py] have the same test file. *)
Theorem package_and_module_share_a_test_file (dirs : list string)
        (d : string) :
  has_relpath os = true ->
  posixpath.isabs (getcwd os) = true ->
  sr <> "" ->
  Forall (fun s => segment s = true) (dirs ++ [d]) ->
  d <> "__init__" ->
  (exists test_file,
      FollowHierarchyLayout.get_test_file os self
        (package_path sr (dirs ++ [d])) = Return test_file
      /\ FollowHierarchyLayout.get_test_file os self
           (module_path sr dirs d) = Return test_file)
  /\ (exists test_file,
         FlatLayout.get_test_file os self
           (package_path sr (dirs ++ [d])) = Return test_file
         /\ FlatLayout.get_test_file os self
              (module_path sr dirs d) = Return test_file).
Proof.
  intros Hrel Hcwd Hsr Hd Hinit.
  pose proof Hd as Hd'. apply Forall_app in Hd' as [Hdirs Hlast].
  inversion Hlast as [|? ? Hseg _]; subst.
  apply segment_spec in Hseg as (_ & _ & _ & Hsep).
  split; eexists; split.
  - now apply follow_hierarchy_test_file_package.
  - now apply follow_hierarchy_test_file.
  - now apply flat_test_file_package.
  - now apply flat_test_file.
Qed.

(** X20.  Flat: the module files [sourceRoot/d1/.../dn/d/m.py] and
    [sourceRoot/d1/.../dn/d_m.py] have the same test file; the flat name
    does not tell a separator from an underscore. *)
Theorem flat_name_merges_separator_and_underscore (dirs : list string)
        (d m : string) :
  has_relpath os = true ->
  posixpath.isabs (getcwd os) = true ->
  sr <> "" ->
  Forall (fun s => segment s = true) (dirs ++ [d]) ->
  contains "/"%char m = false -> m <> "__init__" ->
  d ++ "_" ++ m <> "__init__" ->
  exists test_file,
    FlatLayout.get_test_file os self (module_path sr (dirs ++ [d]) m)
    = Return test_file
    /\ FlatLayout.get_test_file os self
         (module_path sr dirs (d ++ "_" ++ m)) = Return test_file.
Proof.
  intros Hrel Hcwd Hsr Hd Hm Hinit Hinit'.
  pose proof Hd as Hd'. apply Forall_app in Hd' as [Hdirs Hlast].
  inversion Hlast as [|? ? Hseg _]; subst.
  apply segment_spec in Hseg as (_ & _ & _ & Hsep).
  eexists. split; [now apply flat_test_file|].
  rewrite flat_test_file; auto.
  - do 3 f_equal. rewrite <- app_assoc. cbn [app].
    destruct dirs as [|x dirs]; [reflexivity|].
    rewrite !join_app by discriminate. reflexivity.
  - now rewrite !contains_append, Hsep, Hm.
Qed.
End SharedTestFile.

Lemma package_and_module_share_a_test_file_witness :
  (exists test_file,
      FollowHierarchyLayout.get_test_file (Example.os "/proj" true)
        Example.layout "src/pkg/__init__.py" = Return test_file
      /\ FollowHierarchyLayout.get_test_file (Example.os "/proj" true)
           Example.layout "src/pkg.py" = Return test_file)
  /\ (exists test_file,
         FlatLayout.get_test_file (Example.os "/proj" true)
           Example.layout "src/pkg/__init__.py" = Return test_file
         /\ FlatLayout.get_test_file (Example.os "/proj" true)
              Example.layout "src/pkg.py" = Return test_file).
Proof.
  apply (package_and_module_share_a_test_file (Example.os "/proj" true)
           Example.layout [] "pkg");
    try reflexivity; try discriminate; repeat constructor.
Defined.

Lemma flat_name_merges_separator_and_underscore_witness :
  exists test_file,
    FlatLayout.get_test_file (Example.os "/proj" true) Example.layout
      "src/pkg/mod.py" = Return test_file
    /\ FlatLayout.get_test_file (Example.os "/proj" true) Example.layout
         "src/pkg_mod.py" = Return test_file.
Proof.
  apply (flat_name_merges_separator_and_underscore
           (Example.os "/proj" true) Example.layout [] "pkg" "mod");
    try reflexivity; try discriminate; repeat constructor.
Defined.
